(** * wxauto-repost-onebotv11: converter, socket client and message router

    A shallow embedding of the Python sources

      - [src/config_manager.py]   (dotted-path lookup),
      - [src/onebot_converter.py] (class [OneBotV11Converter]),
      - [src/websocket_client.py] (class [WebSocketClient]),
      - [src/wechat_monitor.py]   (identity lookup),
      - [src/message_handler.py]  (class [MessageHandler]),

    followed by the properties established about them.

    Conventions.  A Python [str] is a Rocq [string] holding its UTF-8
    encoding, so that concatenation, equality, prefix and suffix tests against
    ASCII patterns and the token scanner (whose special characters are all
    ASCII) act on it exactly as they act on the sequence of code points.  The
    two Unicode-aware operations the code uses, [str.strip] and [str.lower],
    are written out on the encoded form.  JSON-shaped data (dicts, lists,
    strings, integers, booleans, [None]) is the type [pyval]; Python floats do
    not occur in the data these functions inspect.  Exceptions are values of
    type [exn] carried by the [result] monad; everything the code asks of the
    outside world (clock, file system, hash seed, socket, chat endpoint) is a
    field of an environment record. *)

From Stdlib Require Import String Ascii List ZArith Bool Arith Lia.
From Stdlib Require Import DecimalString.
Import ListNotations.

Open Scope list_scope.
Open Scope string_scope.

(* ------------------------------------------------------------------ *)
(** * Python values *)

Module Py.

#[local] Set Warnings "-register-all".
Inductive pyval : Type :=
| PNone
| PBool (b : bool)
| PInt (z : Z)
| PStr (s : string)
| PList (l : list pyval)
| PDict (d : list (string * pyval)).

(** A [dict] keeps insertion order; keys are unique. *)
Definition dict := list (string * pyval).

Fixpoint dict_get (k : string) (d : dict) : option pyval :=
  match d with
  | [] => None
  | (k', v) :: d' => if String.eqb k' k then Some v else dict_get k d'
  end.

(** [d.get(k, default)] *)
Definition get (d : dict) (k : string) (default : pyval) : pyval :=
  match dict_get k d with
  | Some v => v
  | None => default
  end.

(** [k in d] *)
Definition has_key (k : string) (d : dict) : bool :=
  match dict_get k d with Some _ => true | None => false end.

(** [d[k] = v]: an existing key keeps its position. *)
Fixpoint dict_set (k : string) (v : pyval) (d : dict) : dict :=
  match d with
  | [] => [(k, v)]
  | (k', v') :: d' =>
      if String.eqb k' k then (k', v) :: d' else (k', v') :: dict_set k v d'
  end.

(** [d.update(u)] *)
Definition update (d u : dict) : dict :=
  fold_left (fun acc kv => dict_set (fst kv) (snd kv) acc) u d.

(** Truth value of an object. *)
Definition truthy (v : pyval) : bool :=
  match v with
  | PNone => false
  | PBool b => b
  | PInt z => negb (Z.eqb z 0)
  | PStr s => negb (String.eqb s "")
  | PList l => match l with [] => false | _ => true end
  | PDict d => match d with [] => false | _ => true end
  end.

(** [a == b].  [bool] is a subclass of [int]; dicts compare regardless of
    order. *)
Fixpoint py_eq (a b : pyval) {struct a} : bool :=
  match a, b with
  | PNone, PNone => true
  | PBool x, PBool y => Bool.eqb x y
  | PBool x, PInt y => Z.eqb (if x then 1 else 0) y
  | PInt x, PBool y => Z.eqb x (if y then 1 else 0)
  | PInt x, PInt y => Z.eqb x y
  | PStr x, PStr y => String.eqb x y
  | PList x, PList y =>
      (fix go (x y : list pyval) {struct x} : bool :=
         match x, y with
         | [], [] => true
         | a' :: x', b' :: y' => py_eq a' b' && go x' y'
         | _, _ => false
         end) x y
  | PDict x, PDict y =>
      Nat.eqb (List.length x) (List.length y) &&
      (fix go (x : list (string * pyval)) {struct x} : bool :=
         match x with
         | [] => true
         | (k, v) :: x' =>
             match dict_get k y with
             | Some w => py_eq v w
             | None => false
             end && go x'
         end) x
  | _, _ => false
  end.

Definition is_dict (v : pyval) : bool :=
  match v with PDict _ => true | _ => false end.

Definition is_str (v : pyval) : bool :=
  match v with PStr _ => true | _ => false end.

Definition is_list (v : pyval) : bool :=
  match v with PList _ => true | _ => false end.

(** [type(v).__name__] *)
Definition type_name (v : pyval) : string :=
  match v with
  | PNone => "NoneType"
  | PBool _ => "bool"
  | PInt _ => "int"
  | PStr _ => "str"
  | PList _ => "list"
  | PDict _ => "dict"
  end.

(** Exceptions: class name and the text [str(e)] gives. *)
Inductive exn : Type := Raise (cls : string) (msg : string).

Definition exn_str (e : exn) : string :=
  match e with Raise _ msg => msg end.

Inductive result (A : Type) : Type :=
| Ok (a : A)
| Err (e : exn).
Arguments Ok {A} a.
Arguments Err {A} e.

Definition bind {A B : Type} (m : result A) (f : A -> result B) : result B :=
  match m with
  | Ok a => f a
  | Err e => Err e
  end.

(** [try: m  except Exception as e: h e] *)
Definition try_except {A : Type} (m : result A) (h : exn -> A) : A :=
  match m with
  | Ok a => a
  | Err e => h e
  end.

Definition AttributeError (v : pyval) (attr : string) : exn :=
  Raise "AttributeError"
        ("'" ++ type_name v ++ "' object has no attribute '" ++ attr ++ "'").

(** [v.get(k, default)] on an arbitrary object: only dicts have [get]. *)
Definition py_get (v : pyval) (k : string) (default : pyval) : result pyval :=
  match v with
  | PDict d => Ok (get d k default)
  | _ => Err (AttributeError v "get")
  end.

End Py.
Export Py.

Notation "x <- m ;; k" := (bind m (fun x => k))
  (at level 61, m at next level, right associativity).

(* ------------------------------------------------------------------ *)
(** * String operations of the Python standard library *)

Module Str.

(** [s.startswith(p)] *)
Definition startswith (p s : string) : bool := String.prefix p s.

(** [s[n:]] *)
Fixpoint drop (n : nat) (s : string) : string :=
  match n, s with
  | O, _ => s
  | S n', String _ s' => drop n' s'
  | S _, EmptyString => EmptyString
  end.

(** [s[a:b]] for [a <= b] *)
Definition slice (a b : nat) (s : string) : string := substring a (b - a) s.

(** [s.endswith(p)] *)
Definition endswith (p s : string) : bool :=
  Nat.leb (String.length p) (String.length s) &&
  String.eqb (drop (String.length s - String.length p) s) p.

(** [s.endswith((p1, ..., pn))] *)
Definition endswith_any (ps : list string) (s : string) : bool :=
  existsb (fun p => endswith p s) ps.

(** [c in s] for a one-character [c] *)
Fixpoint contains (c : ascii) (s : string) : bool :=
  match s with
  | EmptyString => false
  | String a s' => Ascii.eqb a c || contains c s'
  end.

(** [s.split(c)]: never empty, empty fields are kept. *)
Fixpoint split (c : ascii) (s : string) : list string :=
  match s with
  | EmptyString => [EmptyString]
  | String a s' =>
      if Ascii.eqb a c then EmptyString :: split c s'
      else match split c s' with
           | h :: t => String a h :: t
           | [] => [String a EmptyString]
           end
  end.

(** [s.split(c, 1)]: one field when [c] is absent, else the text before the
    first [c] and everything after it. *)
Fixpoint split1 (c : ascii) (s : string) : list string :=
  match s with
  | EmptyString => [EmptyString]
  | String a s' =>
      if Ascii.eqb a c then [EmptyString; s']
      else match split1 c s' with
           | h :: t => String a h :: t
           | [] => [String a EmptyString]
           end
  end.

(** [''.join(parts)] *)
Definition join (parts : list string) : string := String.concat "" parts.

(** [sep.join(parts)] *)
Definition join_with (sep : string) (parts : list string) : string :=
  String.concat sep parts.

(** [str(z)] for an [int] *)
Definition of_Z (z : Z) : string := NilEmpty.string_of_int (Z.to_int z).

Definition code (c : ascii) : N := N_of_ascii c.

(** White space in the sense of [str.strip()], one-byte code points:
    U+0009..U+000D, U+001C..U+001F, U+0020. *)
Definition space1 (c : ascii) : bool :=
  let n := code c in
  (N.leb 9 n && N.leb n 13) || (N.leb 28 n && N.leb n 31) || N.eqb n 32.

(** Two-byte code points: U+0085 and U+00A0. *)
Definition space2 (c1 c2 : ascii) : bool :=
  N.eqb (code c1) 194 && (N.eqb (code c2) 133 || N.eqb (code c2) 160).

(** Three-byte code points: U+1680, U+2000..U+200A, U+2028, U+2029, U+202F,
    U+205F, U+3000. *)
Definition space3 (c1 c2 c3 : ascii) : bool :=
  let a := code c1 in
  let b := code c2 in
  let c := code c3 in
  (N.eqb a 225 && N.eqb b 154 && N.eqb c 128) ||
  (N.eqb a 226 && N.eqb b 128 &&
     ((N.leb 128 c && N.leb c 138) || N.eqb c 168 || N.eqb c 169 || N.eqb c 175)) ||
  (N.eqb a 226 && N.eqb b 129 && N.eqb c 159) ||
  (N.eqb a 227 && N.eqb b 128 && N.eqb c 128).

(** [s.strip() == ''] *)
Fixpoint is_blank (s : string) : bool :=
  match s with
  | EmptyString => true
  | String c1 s1 =>
      if space1 c1 then is_blank s1
      else match s1 with
           | EmptyString => false
           | String c2 s2 =>
               if space2 c1 c2 then is_blank s2
               else match s2 with
                    | EmptyString => false
                    | String c3 s3 =>
                        if space3 c1 c2 c3 then is_blank s3 else false
                    end
           end
  end.

Definition lower1 (c : ascii) : ascii :=
  let n := code c in
  if N.leb 65 n && N.leb n 90 then ascii_of_N (n + 32) else c.

(** [s.lower()], exact on everything that yields an ASCII character: the
    letters A..Z, U+212A (Kelvin sign, lowered to [k]) and U+0130 (lowered to
    [i] followed by U+0307).  Every other code point is lowered by Python to a
    non-ASCII code point and is left as it is here; the code only compares the
    result with ASCII suffixes. *)
Fixpoint lower (s : string) : string :=
  match s with
  | EmptyString => EmptyString
  | String c1 s1 =>
      match s1 with
      | String c2 s2 =>
          if N.eqb (code c1) 196 && N.eqb (code c2) 176 then
            String "i" (String (ascii_of_N 204) (String (ascii_of_N 135) (lower s2)))
          else
            match s2 with
            | String c3 s3 =>
                if N.eqb (code c1) 226 && N.eqb (code c2) 132 && N.eqb (code c3) 170
                then String "k" (lower s3)
                else String (lower1 c1) (lower s1)
            | EmptyString => String (lower1 c1) (lower s1)
            end
      | EmptyString => String (lower1 c1) EmptyString
      end
  end.

(** Number of bytes of the code point that starts with byte [c]. *)
Definition utf8_width (c : ascii) : nat :=
  let n := code c in
  if N.ltb n 192 then 1 else if N.ltb n 224 then 2 else if N.ltb n 240 then 3 else 4.

(** The code points of [s], each as a one-character string ([list(s)]).
    [k] counts the bytes still owed to the code point in progress. *)
Fixpoint chars_from (k : nat) (cur : string) (s : string) : list string :=
  match s with
  | EmptyString => match cur with EmptyString => [] | _ => [cur] end
  | String c s' =>
      match k with
      | S k' => chars_from k' (cur ++ String c EmptyString) s'
      | O =>
          match cur with
          | EmptyString => chars_from (utf8_width c - 1) (String c EmptyString) s'
          | _ => cur :: chars_from (utf8_width c - 1) (String c EmptyString) s'
          end
      end
  end.

Definition chars (s : string) : list string := chars_from 0 EmptyString s.

End Str.

(* ------------------------------------------------------------------ *)
(** * The outside world *)

(** What the code obtains from the interpreter, the clock and the file
    system.  A field of type [result _] may raise. *)
Record Env : Type := {
  (** [int(time.time())] *)
  now : Z;
  (** [int(time.time() * 1000)] *)
  now_ms : Z;
  (** the built-in [hash] on strings (seeded per process) *)
  py_hash : string -> Z;
  (** [str(v)] for a list or a dict *)
  repr_container : pyval -> string;
  (** [Path(p).exists()] *)
  path_exists : string -> result bool;
  (** [base64.b64encode(open(p, 'rb').read()).decode('utf-8')] *)
  read_base64 : string -> result string;
  (** [Path(p).stat().st_size] *)
  stat_size : string -> result Z;
  (** [_format_file_size]: a float rendered with one decimal and a unit *)
  format_file_size : Z -> string;
  (** [base64.b64decode(payload)] *)
  b64decode : string -> result string;
  (** [str(project_root / d / name)] *)
  cache_path : pyval -> string -> result string;
  (** [d.mkdir(parents=True, exist_ok=True)] then writing the bytes to the
      file *)
  write_cache : string -> string -> result unit
}.

(** [str(v)], as used by f-strings and [str.format]. *)
Definition py_str (env : Env) (v : pyval) : string :=
  match v with
  | PNone => "None"
  | PBool true => "True"
  | PBool false => "False"
  | PInt z => Str.of_Z z
  | PStr s => s
  | PList _ | PDict _ => repr_container env v
  end.

(** Iterating over an object with [for x in v]. *)
Definition py_iter (v : pyval) : result (list pyval) :=
  match v with
  | PList l => Ok l
  | PDict d => Ok (map (fun kv => PStr (fst kv)) d)
  | PStr s => Ok (map PStr (Str.chars s))
  | _ => Err (Raise "TypeError" ("'" ++ type_name v ++ "' object is not iterable"))
  end.

(* ------------------------------------------------------------------ *)
(** * config_manager.py *)

Module ConfigManager.

(** [value[k]] inside [get]: [KeyError] and [TypeError] are both answered by
    the default, so the lookup is an option. *)
Definition subscript (value : pyval) (k : string) : option pyval :=
  match value with
  | PDict d => dict_get k d
  | _ => None
  end.

Fixpoint walk (keys : list string) (value : pyval) : option pyval :=
  match keys with
  | [] => Some value
  | k :: keys' =>
      match subscript value k with
      | Some v => walk keys' v
      | None => None
      end
  end.

(** [ConfigManager.get(key, default)] over [config_data]. *)
Definition get (config_data : pyval) (key : string) (default : pyval) : pyval :=
  match walk (Str.split "." key) config_data with
  | Some v => v
  | None => default
  end.

(** [config[k] = v] and [k not in config] with [config = config[k]] inside
    [set]: only a dict takes either; anything else raises, which [set]
    answers with [False]. *)
Fixpoint set_in (keys : list string) (last : string) (value config : pyval) : option pyval :=
  match keys with
  | [] =>
      match config with
      | PDict d => Some (PDict (dict_set last value d))
      | _ => None
      end
  | k :: keys' =>
      match config with
      | PDict d =>
          let child := match dict_get k d with Some c => c | None => PDict [] end in
          match set_in keys' last value child with
          | Some child' => Some (PDict (dict_set k child' d))
          | None => None
          end
      | _ => None
      end
  end.

(** [ConfigManager.set(key, value)]: the new [config_data] and the answer.
    A failure happens before anything was written, so the store is then
    unchanged.  The store is held as a value, so the stores meant are those
    without sharing: no dict object is stored in two places, which is what
    reading the JSON file gives.  On them the write in place of the source
    and the rebuilt path here read the same. *)
Definition set (config_data : pyval) (key : string) (value : pyval) : pyval * bool :=
  let keys := Str.split "." key in
  match set_in (removelast keys) (last keys EmptyString) value config_data with
  | Some config_data' => (config_data', true)
  | None => (config_data, false)
  end.

(** [_merge_config(base, updates)] for [updates] a dict, as every caller in
    the class passes and as the recursion guarantees; on anything else
    [updates.items()] raises, and the answer given here is not meant. *)
Fixpoint _merge_config (base : dict) (updates : pyval) {struct updates} : dict :=
  match updates with
  | PDict u =>
      (fix items (u : list (string * pyval)) (result : dict) {struct u} : dict :=
         match u with
         | [] => result
         | (key, value) :: rest =>
             items rest
               match dict_get key result, value with
               | Some (PDict b), PDict _ => dict_set key (PDict (_merge_config b value)) result
               | _, _ => dict_set key value result
               end
         end) u base
  | _ => base
  end.

End ConfigManager.

(* ------------------------------------------------------------------ *)
(** * onebot_converter.py *)

Module OneBotV11Converter.

Section Converter.

Variable env : Env.
(** [config_manager.config_data] *)
Variable config : pyval.

Definition self_id : pyval :=
  ConfigManager.get config "onebot.self_id" (PStr "wxauto_bot").

(** [Path(v)]: anything but a [str] is refused. *)
Definition Path (v : pyval) : result string :=
  match v with
  | PStr s => Ok s
  | _ => Err (Raise "TypeError"
                    ("expected str, bytes or os.PathLike object, not " ++ type_name v))
  end.

(** [v and Path(v).exists()] as a condition *)
Definition and_exists (v : pyval) : result bool :=
  if truthy v then p <- Path v ;; path_exists env p else Ok false.

Definition segment (type : pyval) (data : dict) : pyval :=
  PDict [("type", type); ("data", PDict data)].

Definition sender (wechat_msg : dict) : pyval :=
  PDict [("user_id", get wechat_msg "user_id" (PStr ""));
         ("nickname", get wechat_msg "user_name" (PStr ""));
         ("card", PStr "");
         ("sex", PStr "unknown");
         ("age", PInt 0);
         ("area", PStr "");
         ("level", PStr "1");
         ("role", PStr "member");
         ("title", PStr "")].

Definition _generate_message_id (wechat_msg : dict) : pyval :=
  let timestamp := get wechat_msg "timestamp" (PInt (now env)) in
  let user_id := get wechat_msg "user_id" (PStr "") in
  PInt (Z.land (py_hash env (py_str env timestamp ++ "_" ++ py_str env user_id ++ "_"
                               ++ py_str env (get wechat_msg "message_id" (PStr ""))))
               2147483647).

Definition _convert_text_message (wechat_msg : dict) : dict :=
  let content := get wechat_msg "content" (PStr "") in
  [("message", PList [segment (PStr "text") [("text", content)]]);
   ("raw_message", content)].

Definition _convert_image_message (wechat_msg : dict) : result dict :=
  let image_path := get wechat_msg "image_path" PNone in
  let image_url := get wechat_msg "image_url" PNone in
  has_file <- and_exists image_path ;;
  let image_data : dict :=
    if has_file then
      [("file",
        try_except
          (p <- Path image_path ;;
           image_base64 <- read_base64 env p ;;
           Ok (PStr ("base64://" ++ image_base64)))
          (fun _ => image_path))]
    else if truthy image_url then [("file", image_url)]
    else [("file", PStr "[图片]")] in
  Ok [("message", PList [segment (PStr "image") image_data]);
      ("raw_message",
       PStr ("[CQ:image,file=" ++ py_str env (get image_data "file" (PStr "")) ++ "]"))].

Definition _convert_file_message (wechat_msg : dict) : result dict :=
  let file_path := get wechat_msg "file_path" PNone in
  let file_name := get wechat_msg "file_name" (PStr "unknown_file") in
  has_file <- and_exists file_path ;;
  content <-
    (if has_file then
       p <- Path file_path ;;
       file_size <- stat_size env p ;;
       Ok ("[文件: " ++ py_str env file_name ++ ", 大小: "
             ++ format_file_size env file_size ++ "]")
     else Ok ("[文件: " ++ py_str env file_name ++ "]")) ;;
  Ok [("message", PList [segment (PStr "text") [("text", PStr content)]]);
      ("raw_message", PStr content)].

Definition _convert_voice_message (wechat_msg : dict) : result dict :=
  let voice_path := get wechat_msg "voice_path" PNone in
  has_file <- and_exists voice_path ;;
  let voice_data : dict :=
    if has_file then
      [("file",
        try_except
          (p <- Path voice_path ;;
           voice_base64 <- read_base64 env p ;;
           Ok (PStr ("base64://" ++ voice_base64)))
          (fun _ => voice_path))]
    else [("file", PStr "[语音]")] in
  Ok [("message", PList [segment (PStr "record") voice_data]);
      ("raw_message",
       PStr ("[CQ:record,file=" ++ py_str env (get voice_data "file" (PStr "")) ++ "]"))].

Definition _create_error_message (wechat_msg : dict) (error : string) : dict :=
  [("time", PInt (now env));
   ("self_id", self_id);
   ("post_type", PStr "message");
   ("message_type", PStr "private");
   ("sub_type", PStr "friend");
   ("message_id", PInt (now env));
   ("user_id", get wechat_msg "user_id" (PStr ""));
   ("message", PList [segment (PStr "text")
                              [("text", PStr ("[消息转换失败: " ++ error ++ "]"))]]);
   ("raw_message", PStr ("[消息转换失败: " ++ error ++ "]"));
   ("font", PInt 0);
   ("sender", sender wechat_msg)].

Definition wechat_to_onebot (wechat_msg : dict) : dict :=
  try_except
    (let onebot_msg : dict :=
       [("time", get wechat_msg "timestamp" (PInt (now env)));
        ("self_id", self_id);
        ("post_type", PStr "message");
        ("message_type", PStr "private");
        ("sub_type", PStr "friend");
        ("message_id", _generate_message_id wechat_msg);
        ("user_id", get wechat_msg "user_id" (PStr ""));
        ("message", PList []);
        ("raw_message", PStr "");
        ("font", PInt 0);
        ("sender", sender wechat_msg)] in
     let msg_type := get wechat_msg "message_type" (PStr "text") in
     converted <-
       (if py_eq msg_type (PStr "text") then Ok (_convert_text_message wechat_msg)
        else if py_eq msg_type (PStr "image") then _convert_image_message wechat_msg
        else if py_eq msg_type (PStr "file") then _convert_file_message wechat_msg
        else if py_eq msg_type (PStr "voice") then _convert_voice_message wechat_msg
        else Ok (_convert_text_message wechat_msg)) ;;
     Ok (update onebot_msg converted))
    (fun e => _create_error_message wechat_msg (exn_str e)).

Definition _process_image_file (file_data : pyval) : pyval :=
  try_except
    (match file_data with
     | PStr s =>
         if Str.startswith "base64://" s then
           let base64_data := Str.drop 9 s in
           image_bytes <- b64decode env base64_data ;;
           file_path <-
             cache_path env
               (ConfigManager.get config "message.image_cache_dir" (PStr "cache/images"))
               ("received_image_" ++ Str.of_Z (now env) ++ ".jpg") ;;
           _ <- write_cache env file_path image_bytes ;;
           Ok (PStr file_path)
         else if Str.startswith "http://" s || Str.startswith "https://" s then
           Ok file_data
         else
           present <- path_exists env s ;;
           if present then Ok file_data else Ok PNone
     | _ => Err (AttributeError file_data "startswith")
     end)
    (fun _ => PNone).

Definition _process_voice_file (file_data : pyval) : pyval :=
  try_except
    (match file_data with
     | PStr s =>
         if Str.startswith "base64://" s then
           let base64_data := Str.drop 9 s in
           voice_bytes <- b64decode env base64_data ;;
           file_path <-
             cache_path env
               (ConfigManager.get config "message.file_cache_dir" (PStr "cache/files"))
               ("received_voice_" ++ Str.of_Z (now env) ++ ".wav") ;;
           _ <- write_cache env file_path voice_bytes ;;
           Ok (PStr file_path)
         else
           present <- path_exists env s ;;
           if present then Ok file_data else Ok PNone
     | _ => Err (AttributeError file_data "startswith")
     end)
    (fun _ => PNone).

(** The three variables the loop of [_parse_onebot_message] updates. *)
Record loop_state : Type := {
  message_type : pyval;       (* result['message_type'] *)
  files : list pyval;         (* result['files'] *)
  content_parts : list pyval
}.

Definition append_part (st : loop_state) (part : pyval) : loop_state :=
  {| message_type := message_type st;
     files := files st;
     content_parts := content_parts st ++ [part] |}.

Definition append_file (st : loop_state) (kind : string) (path part : pyval) : loop_state :=
  {| message_type := PStr kind;
     files := files st ++ [path];
     content_parts := content_parts st ++ [part] |}.

(** One iteration of [for segment in message]. *)
Definition loop_body (st : loop_state) (seg : pyval) : result loop_state :=
  seg_type <- py_get seg "type" (PStr "text") ;;
  seg_data <- py_get seg "data" (PDict []) ;;
  if py_eq seg_type (PStr "text") then
    text <- py_get seg_data "text" (PStr "") ;;
    Ok (append_part st text)
  else if py_eq seg_type (PStr "image") then
    image_file <- py_get seg_data "file" (PStr "") ;;
    let image_path := _process_image_file image_file in
    if truthy image_path then Ok (append_file st "image" image_path (PStr "[图片]"))
    else Ok (append_part st (PStr "[图片]"))
  else if py_eq seg_type (PStr "record") then
    voice_file <- py_get seg_data "file" (PStr "") ;;
    let voice_path := _process_voice_file voice_file in
    if truthy voice_path then Ok (append_file st "voice" voice_path (PStr "[语音]"))
    else Ok (append_part st (PStr "[语音]"))
  else if py_eq seg_type (PStr "at") then
    qq <- py_get seg_data "qq" (PStr "") ;;
    Ok (append_part st (PStr ("@" ++ py_str env qq)))
  else if py_eq seg_type (PStr "face") then
    face_id <- py_get seg_data "id" (PStr "") ;;
    Ok (append_part st (PStr ("[表情" ++ py_str env face_id ++ "]")))
  else
    Ok (append_part st (PStr ("[" ++ py_str env seg_type ++ "]"))).

Fixpoint loop (st : loop_state) (message : list pyval) : result loop_state :=
  match message with
  | [] => Ok st
  | seg :: rest => st' <- loop_body st seg ;; loop st' rest
  end.

(** [''.join(parts)], which refuses anything but [str] items; [i] is the
    index of the head of [parts]. *)
Fixpoint join_parts (i : nat) (parts : list pyval) : result string :=
  match parts with
  | [] => Ok EmptyString
  | PStr s :: rest => t <- join_parts (S i) rest ;; Ok (s ++ t)
  | v :: _ =>
      Err (Raise "TypeError"
                 ("sequence item " ++ Str.of_Z (Z.of_nat i) ++ ": expected str instance, "
                    ++ type_name v ++ " found"))
  end.

(** [part.strip() and not part.startswith('[')] *)
Definition is_plain_text (part : pyval) : bool :=
  match part with
  | PStr s => negb (Str.is_blank s) && negb (Str.startswith "[" s)
  | _ => false
  end.

Definition image_suffixes : list string := [".jpg"; ".jpeg"; ".png"; ".gif"; ".bmp"].
Definition voice_suffixes : list string := [".wav"; ".mp3"; ".amr"; ".silk"].

(** The kind chosen from the extension of the only file. *)
Definition kind_of_path (file_path : pyval) : pyval :=
  match file_path with
  | PStr p =>
      if Str.endswith_any image_suffixes (Str.lower p) then PStr "image"
      else if Str.endswith_any voice_suffixes (Str.lower p) then PStr "voice"
      else PStr "file"
  | _ => PStr "file"
  end.

Definition _parse_onebot_message (message : list pyval) : result dict :=
  st <- loop {| message_type := PStr "text"; files := []; content_parts := [] |} message ;;
  content <- join_parts 0 (content_parts st) ;;
  let message_type' :=
    match files st with
    | [file_path] =>
        if negb (existsb is_plain_text (content_parts st)) then kind_of_path file_path
        else message_type st
    | _ => message_type st
    end in
  Ok [("content", PStr content);
      ("message_type", message_type');
      ("files", PList (files st))].

Definition onebot_to_wechat (onebot_msg : dict) : dict :=
  try_except
    (let wechat_msg : dict :=
       [("user_id", get onebot_msg "user_id" (PStr ""));
        ("content", PStr "");
        ("message_type", PStr "text");
        ("timestamp", get onebot_msg "time" (PInt (now env)))] in
     let message := get onebot_msg "message" (PList []) in
     match message with
     | PStr _ => Ok (dict_set "content" message wechat_msg)
     | PList segments =>
         parsed <- _parse_onebot_message segments ;;
         Ok (update wechat_msg parsed)
     | _ => Ok (dict_set "content" (PStr (py_str env message)) wechat_msg)
     end)
    (fun e =>
       [("user_id", get onebot_msg "user_id" (PStr ""));
        ("content", PStr ("[消息解析失败: " ++ exn_str e ++ "]"));
        ("message_type", PStr "text");
        ("timestamp", PInt (now env))]).

Definition create_lifecycle_event (sub_type : pyval) : dict :=
  [("time", PInt (now env));
   ("self_id", self_id);
   ("post_type", PStr "meta_event");
   ("meta_event_type", PStr "lifecycle");
   ("sub_type", sub_type)].

End Converter.

End OneBotV11Converter.

(* ------------------------------------------------------------------ *)
(** * websocket_client.py *)

Module WebSocketClient.

(** What the client does to the outside, in the order it does it. *)
Inductive event : Type :=
| ThreadStarted (target : string)   (* [threading.Thread(target=...).start()] *)
| ConnectAttempt (url : pyval)      (* [WebSocketApp(url, ...).run_forever()] *)
| Slept (seconds : Z)               (* [time.sleep] *)
| Transmitted (frame : dict)        (* [ws.send(json.dumps(frame))] *)
| SocketClosed                      (* [ws.close()] *)
| Callback (name : string) (arg : pyval).

Record state : Type := {
  ws : option pyval;                (* the [WebSocketApp], named by its address *)
  ws_url : pyval;
  is_connected : bool;
  is_running : bool;
  send_queue : list dict;
  receive_queue : list pyval;
  on_message_callback : bool;       (* whether a callback is registered *)
  on_connect_callback : bool;
  on_disconnect_callback : bool;
  reconnect_interval : Z;
  max_reconnect_attempts : Z;
  reconnect_attempts : Z;
  heartbeat_interval : Z;
  last_heartbeat : Z;
  trace : list event
}.

(** [__init__] *)
Definition init : state :=
  {| ws := None; ws_url := PStr ""; is_connected := false; is_running := false;
     send_queue := []; receive_queue := [];
     on_message_callback := false; on_connect_callback := false;
     on_disconnect_callback := false;
     reconnect_interval := 5; max_reconnect_attempts := 10; reconnect_attempts := 0;
     heartbeat_interval := 30; last_heartbeat := 0; trace := [] |}.

Definition emit (e : event) (st : state) : state :=
  {| ws := ws st; ws_url := ws_url st; is_connected := is_connected st;
     is_running := is_running st; send_queue := send_queue st;
     receive_queue := receive_queue st;
     on_message_callback := on_message_callback st;
     on_connect_callback := on_connect_callback st;
     on_disconnect_callback := on_disconnect_callback st;
     reconnect_interval := reconnect_interval st;
     max_reconnect_attempts := max_reconnect_attempts st;
     reconnect_attempts := reconnect_attempts st;
     heartbeat_interval := heartbeat_interval st;
     last_heartbeat := last_heartbeat st;
     trace := trace st ++ [e] |}.

Definition set_ws (w : option pyval) (st : state) : state :=
  {| ws := w; ws_url := ws_url st; is_connected := is_connected st;
     is_running := is_running st; send_queue := send_queue st;
     receive_queue := receive_queue st;
     on_message_callback := on_message_callback st;
     on_connect_callback := on_connect_callback st;
     on_disconnect_callback := on_disconnect_callback st;
     reconnect_interval := reconnect_interval st;
     max_reconnect_attempts := max_reconnect_attempts st;
     reconnect_attempts := reconnect_attempts st;
     heartbeat_interval := heartbeat_interval st;
     last_heartbeat := last_heartbeat st;
     trace := trace st |}.

Definition set_ws_url (u : pyval) (st : state) : state :=
  {| ws := ws st; ws_url := u; is_connected := is_connected st;
     is_running := is_running st; send_queue := send_queue st;
     receive_queue := receive_queue st;
     on_message_callback := on_message_callback st;
     on_connect_callback := on_connect_callback st;
     on_disconnect_callback := on_disconnect_callback st;
     reconnect_interval := reconnect_interval st;
     max_reconnect_attempts := max_reconnect_attempts st;
     reconnect_attempts := reconnect_attempts st;
     heartbeat_interval := heartbeat_interval st;
     last_heartbeat := last_heartbeat st;
     trace := trace st |}.

Definition set_is_connected (b : bool) (st : state) : state :=
  {| ws := ws st; ws_url := ws_url st; is_connected := b;
     is_running := is_running st; send_queue := send_queue st;
     receive_queue := receive_queue st;
     on_message_callback := on_message_callback st;
     on_connect_callback := on_connect_callback st;
     on_disconnect_callback := on_disconnect_callback st;
     reconnect_interval := reconnect_interval st;
     max_reconnect_attempts := max_reconnect_attempts st;
     reconnect_attempts := reconnect_attempts st;
     heartbeat_interval := heartbeat_interval st;
     last_heartbeat := last_heartbeat st;
     trace := trace st |}.

Definition set_is_running (b : bool) (st : state) : state :=
  {| ws := ws st; ws_url := ws_url st; is_connected := is_connected st;
     is_running := b; send_queue := send_queue st;
     receive_queue := receive_queue st;
     on_message_callback := on_message_callback st;
     on_connect_callback := on_connect_callback st;
     on_disconnect_callback := on_disconnect_callback st;
     reconnect_interval := reconnect_interval st;
     max_reconnect_attempts := max_reconnect_attempts st;
     reconnect_attempts := reconnect_attempts st;
     heartbeat_interval := heartbeat_interval st;
     last_heartbeat := last_heartbeat st;
     trace := trace st |}.

Definition set_send_queue (q : list dict) (st : state) : state :=
  {| ws := ws st; ws_url := ws_url st; is_connected := is_connected st;
     is_running := is_running st; send_queue := q;
     receive_queue := receive_queue st;
     on_message_callback := on_message_callback st;
     on_connect_callback := on_connect_callback st;
     on_disconnect_callback := on_disconnect_callback st;
     reconnect_interval := reconnect_interval st;
     max_reconnect_attempts := max_reconnect_attempts st;
     reconnect_attempts := reconnect_attempts st;
     heartbeat_interval := heartbeat_interval st;
     last_heartbeat := last_heartbeat st;
     trace := trace st |}.

Definition set_receive_queue (q : list pyval) (st : state) : state :=
  {| ws := ws st; ws_url := ws_url st; is_connected := is_connected st;
     is_running := is_running st; send_queue := send_queue st;
     receive_queue := q;
     on_message_callback := on_message_callback st;
     on_connect_callback := on_connect_callback st;
     on_disconnect_callback := on_disconnect_callback st;
     reconnect_interval := reconnect_interval st;
     max_reconnect_attempts := max_reconnect_attempts st;
     reconnect_attempts := reconnect_attempts st;
     heartbeat_interval := heartbeat_interval st;
     last_heartbeat := last_heartbeat st;
     trace := trace st |}.

Definition set_reconnect_attempts (n : Z) (st : state) : state :=
  {| ws := ws st; ws_url := ws_url st; is_connected := is_connected st;
     is_running := is_running st; send_queue := send_queue st;
     receive_queue := receive_queue st;
     on_message_callback := on_message_callback st;
     on_connect_callback := on_connect_callback st;
     on_disconnect_callback := on_disconnect_callback st;
     reconnect_interval := reconnect_interval st;
     max_reconnect_attempts := max_reconnect_attempts st;
     reconnect_attempts := n;
     heartbeat_interval := heartbeat_interval st;
     last_heartbeat := last_heartbeat st;
     trace := trace st |}.

Definition set_callbacks (on_message on_connect on_disconnect : bool) (st : state) : state :=
  {| ws := ws st; ws_url := ws_url st; is_connected := is_connected st;
     is_running := is_running st; send_queue := send_queue st;
     receive_queue := receive_queue st;
     on_message_callback := on_message;
     on_connect_callback := on_connect;
     on_disconnect_callback := on_disconnect;
     reconnect_interval := reconnect_interval st;
     max_reconnect_attempts := max_reconnect_attempts st;
     reconnect_attempts := reconnect_attempts st;
     heartbeat_interval := heartbeat_interval st;
     last_heartbeat := last_heartbeat st;
     trace := trace st |}.

(** What [run_forever] hands to the callbacks before it returns. *)
Inductive ws_event : Type :=
| WsOpen
| WsMessage (raw : string)
| WsError
| WsClose.

(** The course of one call of [_connect]. *)
Inductive outcome : Type :=
| Raises                            (* an exception inside [_connect] *)
| Runs (events : list ws_event).    (* [run_forever] returns after these *)

Section Client.

Variable env : Env.
Variable config : pyval.
(** [ws.send(json.dumps(message, ensure_ascii=False))] *)
Variable transmit : dict -> result unit.
(** [json.loads] *)
Variable json_loads : string -> result pyval.

Definition start (st : state) : state * bool :=
  let st := set_ws_url (ConfigManager.get config "onebot.ws_url" (PStr "")) st in
  if negb (truthy (ws_url st)) then (st, false)
  else
    let st := set_is_running true st in
    let st := set_reconnect_attempts 0 st in
    let st := emit (ThreadStarted "_connect_loop") st in
    let st := emit (ThreadStarted "_heartbeat_loop") st in
    (st, true).

Definition stop (st : state) : state :=
  let st := set_is_running false st in
  let st := match ws st with
            | Some _ => set_ws None (emit SocketClosed st)
            | None => st
            end in
  set_is_connected false st.

Definition send_message (st : state) (message : dict) : state * bool :=
  if negb (is_connected st) || match ws st with None => true | Some _ => false end then
    (set_send_queue (send_queue st ++ [message]) st, false)
  else
    match transmit message with
    | Ok _ => (emit (Transmitted message) st, true)
    | Err _ => (set_send_queue (send_queue st ++ [message]) st, false)
    end.

Definition send_wechat_message (st : state) (wechat_msg : dict) : state * bool :=
  let onebot_msg := OneBotV11Converter.wechat_to_onebot env config wechat_msg in
  send_message st onebot_msg.

(** [receive_queue.get_nowait()], with [Empty] answered by [None]. *)
Definition get_received_message (st : state) : state * pyval :=
  match receive_queue st with
  | [] => (st, PNone)
  | frame :: rest => (set_receive_queue rest st, frame)
  end.

Definition _handle_reconnect (st : state) : state :=
  if Z.leb (max_reconnect_attempts st) (reconnect_attempts st) then st
  else
    let st := set_reconnect_attempts (reconnect_attempts st + 1) st in
    emit (Slept (reconnect_interval st)) st.

(** [_process_send_queue]: a frame whose transmission fails goes back to the
    queue, so the loop is bounded by [fuel] here; [None] means it is still
    running. *)
Fixpoint _process_send_queue (fuel : nat) (st : state) : option state :=
  match send_queue st with
  | [] => Some st
  | message :: rest =>
      match fuel with
      | O => None
      | S fuel' =>
          _process_send_queue fuel' (fst (send_message (set_send_queue rest st) message))
      end
  end.

Definition _on_open (fuel : nat) (st : state) : option state :=
  let st := set_is_connected true st in
  let st := set_reconnect_attempts 0 st in
  let lifecycle_event :=
    OneBotV11Converter.create_lifecycle_event env config (PStr "connect") in
  let st := fst (send_message st lifecycle_event) in
  match _process_send_queue fuel st with
  | None => None
  | Some st =>
      Some (if on_connect_callback st then emit (Callback "on_connect" PNone) st else st)
  end.

Definition _on_message (st : state) (message : string) : state :=
  match json_loads message with
  | Err _ => st
  | Ok data =>
      match py_get data "action" (PStr "unknown") with
      | Err _ => st
      | Ok _ =>
          let st := set_receive_queue (receive_queue st ++ [data]) st in
          if on_message_callback st then emit (Callback "on_message" data) st else st
      end
  end.

Definition _on_close (st : state) : state :=
  let st := set_is_connected false st in
  let st := if on_disconnect_callback st
            then emit (Callback "on_disconnect" PNone) st else st in
  if is_running st then _handle_reconnect st else st.

Definition dispatch (fuel : nat) (st : option state) (e : ws_event) : option state :=
  match st with
  | None => None
  | Some st =>
      match e with
      | WsOpen => _on_open fuel st
      | WsMessage raw => Some (_on_message st raw)
      | WsError => Some st
      | WsClose => Some (_on_close st)
      end
  end.

Definition _connect (fuel : nat) (st : state) (o : outcome) : option state :=
  match o with
  | Raises => Some (_handle_reconnect st)
  | Runs events =>
      let st := set_ws (Some (ws_url st)) st in
      let st := emit (ConnectAttempt (ws_url st)) st in
      fold_left (dispatch fuel) events (Some st)
  end.

(** [_connect_loop], one [outcome] for each turn of the [while]; the list
    bounds the number of turns observed. *)
Fixpoint _connect_loop (fuel : nat) (outcomes : list outcome) (st : state) : option state :=
  match outcomes with
  | [] => Some st
  | o :: rest =>
      if is_running st then
        match (if negb (is_connected st) then _connect fuel st o else Some st) with
        | None => None
        | Some st => _connect_loop fuel rest (emit (Slept 1) st)
        end
      else Some st
  end.

Definition get_status (st : state) : dict :=
  [("is_running", PBool (is_running st));
   ("is_connected", PBool (is_connected st));
   ("ws_url", ws_url st);
   ("reconnect_attempts", PInt (reconnect_attempts st));
   ("send_queue_size", PInt (Z.of_nat (List.length (send_queue st))));
   ("receive_queue_size", PInt (Z.of_nat (List.length (receive_queue st))));
   ("last_heartbeat", PInt (last_heartbeat st))].

Definition send_api_response (st : state) (echo data : pyval) (retcode : Z) (status : pyval) : state :=
  let response : dict :=
    [("status", status); ("retcode", PInt retcode); ("data", data); ("echo", echo)] in
  fst (send_message st response).

End Client.

End WebSocketClient.

(* ------------------------------------------------------------------ *)
(** * wechat_monitor.py *)

Module WeChatMonitor.

(** A call on the chat endpoint. *)
Inductive call : Type :=
| send_message (username content : pyval) (msg_type : string)
| send_image (username image_path : pyval)
| send_file (username file_path : pyval).

Section Monitor.

Variable env : Env.
Variable config : pyval.

(** The [for user in monitor_users] loop of [_get_user_id_by_nickname]. *)
Fixpoint user_id_loop (monitor_users : list pyval) (nickname : pyval) : pyval :=
  match monitor_users with
  | [] => nickname
  | user :: rest =>
      match user with
      | PDict d =>
          if py_eq (get d "nickname" PNone) nickname
          then PStr (py_str env (get d "user_id" nickname))
          else user_id_loop rest nickname
      | PStr _ =>
          if py_eq user nickname then nickname else user_id_loop rest nickname
      | _ => user_id_loop rest nickname
      end
  end.

Definition _get_user_id_by_nickname (nickname : pyval) : pyval :=
  try_except
    (monitor_users <- py_iter (ConfigManager.get config "wechat.monitor_users" (PList [])) ;;
     Ok (user_id_loop monitor_users nickname))
    (fun _ => nickname).

End Monitor.

End WeChatMonitor.

(* ------------------------------------------------------------------ *)
(** * message_handler.py *)

Module MessageHandler.

(** ** The token pattern [\[CQ:([^,\]]+)(?:,([^\]]+))?\]] *)

(** [[^,\]]] *)
Definition is_type_char (c : ascii) : bool :=
  negb (Ascii.eqb c ","%char) && negb (Ascii.eqb c "]"%char).

(** [[^\]]] *)
Definition is_param_char (c : ascii) : bool := negb (Ascii.eqb c "]"%char).

(** The longest prefix of characters satisfying [p], and the rest. *)
Fixpoint span (p : ascii -> bool) (s : string) : string * string :=
  match s with
  | EmptyString => (EmptyString, EmptyString)
  | String c s' =>
      if p c then let (a, b) := span p s' in (String c a, b)
      else (EmptyString, s)
  end.

(** [s[len(p):]] when [s] starts with [p] *)
Fixpoint strip_prefix (p s : string) : option string :=
  match p, s with
  | EmptyString, _ => Some s
  | String a p', String b s' => if Ascii.eqb a b then strip_prefix p' s' else None
  | String _ _, EmptyString => None
  end.

(** An attempt to match the pattern at the head of [s]: groups 1 and 2 and
    the length of the match.  Both character classes exclude the character
    that must follow them, so a greedy run is the only one after which the
    rest of the pattern can match, and backtracking finds nothing else. *)
Definition match_here (s : string) : option (string * option string * nat) :=
  match strip_prefix "[CQ:" s with
  | None => None
  | Some s1 =>
      let (ty, s2) := span is_type_char s1 in
      match ty with
      | EmptyString => None
      | String _ _ =>
          match s2 with
          | String c s3 =>
              if Ascii.eqb c "]"%char then Some (ty, None, 4 + String.length ty + 1)
              else if Ascii.eqb c ","%char then
                let (ps, s4) := span is_param_char s3 in
                match ps, s4 with
                | String _ _, String _ _ =>
                    Some (ty, Some ps, 4 + String.length ty + 1 + String.length ps + 1)
                | _, _ => None
                end
              else None
          | EmptyString => None
          end
      end
  end.

(** A match object: [span()], [group(1)], [group(2)]. *)
Record Match : Type := {
  m_start : nat;
  m_end : nat;
  group1 : string;
  group2 : option string
}.

(** [re.finditer] from offset [pos], where [s] is the text from [pos] on:
    leftmost matches that do not overlap.  [skip] counts the characters of
    the previous match still to be passed over. *)
Fixpoint finditer_from (pos skip : nat) (s : string) : list Match :=
  match s with
  | EmptyString => []
  | String _ s' =>
      match skip with
      | S k => finditer_from (S pos) k s'
      | O =>
          match match_here s with
          | Some (ty, ps, len) =>
              {| m_start := pos; m_end := pos + len; group1 := ty; group2 := ps |}
                :: finditer_from (S pos) (len - 1) s'
          | None => finditer_from (S pos) 0 s'
          end
      end
  end.

Definition finditer (message : string) : list Match := finditer_from 0 0 message.

(** ** [_parse_cq_code] *)

Definition text_segment (text : string) : pyval :=
  PDict [("type", PStr "text"); ("data", PDict [("text", PStr text)])].

(** The body of [for param in cq_params_str.split(',')]. *)
Definition add_param (cq_data : dict) (param : string) : dict :=
  if Str.contains "="%char param then
    match Str.split1 "="%char param with
    | [key; value] => dict_set key (PStr value) cq_data
    | _ => cq_data
    end
  else cq_data.

Definition parse_params (cq_params_str : string) : dict :=
  if negb (String.eqb cq_params_str "") then
    fold_left add_param (Str.split ","%char cq_params_str) []
  else [].

(** The body of [for match in re.finditer(cq_pattern, message)], on the pair
    [(segments, last_end)]. *)
Definition cq_step (message : string) (acc : list pyval * nat) (m : Match) : list pyval * nat :=
  let (segments, last_end) := acc in
  let segments :=
    if Nat.ltb last_end (m_start m) then
      let text := Str.slice last_end (m_start m) message in
      if negb (String.eqb text "") then (segments ++ [text_segment text])%list else segments
    else segments in
  let cq_type := group1 m in
  let cq_params_str :=
    match group2 m with
    | Some p => if negb (String.eqb p "") then p else ""
    | None => ""
    end in
  let cq_data := parse_params cq_params_str in
  ((segments ++ [PDict [("type", PStr cq_type); ("data", PDict cq_data)]])%list, m_end m).

Definition _parse_cq_code (message : string) : list pyval :=
  let (segments, last_end) := fold_left (cq_step message) (finditer message) ([], 0) in
  let segments :=
    if Nat.ltb last_end (String.length message) then
      let text := Str.drop last_end message in
      if negb (String.eqb text "") then (segments ++ [text_segment text])%list else segments
    else segments in
  match segments with
  | [] => [text_segment message]
  | _ => segments
  end.

(** ** The router *)

Record state : Type := {
  client : WebSocketClient.state;
  (** [sent_messages]: message id and time of sending *)
  sent_messages : list (Z * Z);
  (** calls made on the chat endpoint, oldest first *)
  wechat_calls : list WeChatMonitor.call
}.

Definition with_client (c : WebSocketClient.state) (st : state) : state :=
  {| client := c; sent_messages := sent_messages st; wechat_calls := wechat_calls st |}.

Definition record_call (c : WeChatMonitor.call) (st : state) : state :=
  {| client := client st; sent_messages := sent_messages st;
     wechat_calls := wechat_calls st ++ [c] |}.

(** [sent_messages[message_id] = t] *)
Fixpoint remember (message_id t : Z) (cache : list (Z * Z)) : list (Z * Z) :=
  match cache with
  | [] => [(message_id, t)]
  | (k, v) :: rest =>
      if Z.eqb k message_id then (k, t) :: rest else (k, v) :: remember message_id t rest
  end.

Definition record_sent (message_id t : Z) (st : state) : state :=
  {| client := client st; sent_messages := remember message_id t (sent_messages st);
     wechat_calls := wechat_calls st |}.

Section Handler.

Variable env : Env.
Variable config : pyval.
Variable transmit : dict -> result unit.
(** The answer of the chat endpoint to a call; it reports its own failures
    as [False], and [Err] stands for an exception escaping it. *)
Variable endpoint : WeChatMonitor.call -> result bool.

Definition send_api_response (st : state) (echo data : pyval) (retcode : Z) (status : pyval) : state :=
  with_client (WebSocketClient.send_api_response transmit (client st) echo data retcode status) st.

(** The [for user in monitored_users] loop of [_find_user_by_id]. *)
Fixpoint find_user_loop (monitored_users : list pyval) (user_id : pyval) : pyval :=
  match monitored_users with
  | [] => user_id
  | user :: rest =>
      match user with
      | PDict d =>
          if py_eq (get d "user_id" PNone) user_id then get d "nickname" PNone
          else find_user_loop rest user_id
      | _ => find_user_loop rest user_id
      end
  end.

Definition _find_user_by_id (user_id : pyval) : pyval :=
  try_except
    (monitored_users <- py_iter (ConfigManager.get config "wechat.monitor_users" (PList [])) ;;
     Ok (find_user_loop monitored_users user_id))
    (fun _ => PNone).

(** [files[0]] *)
Definition first_item (files : pyval) : result pyval :=
  match files with
  | PList (x :: _) => Ok x
  | PList [] => Err (Raise "IndexError" "list index out of range")
  | PStr s =>
      match Str.chars s with
      | c :: _ => Ok (PStr c)
      | [] => Err (Raise "IndexError" "string index out of range")
      end
  | PDict _ => Err (Raise "KeyError" "0")
  | _ => Err (Raise "TypeError" ("'" ++ type_name files ++ "' object is not subscriptable"))
  end.

(** A call on the endpoint, recorded whatever its answer. *)
Definition call_endpoint (st : state) (c : WeChatMonitor.call) : state * result bool :=
  (record_call c st, endpoint c).

Definition _send_to_wechat (st : state) (target_user : pyval) (wechat_msg : dict) : state * bool :=
  let message_type := get wechat_msg "message_type" (PStr "text") in
  let attempt : state * result bool :=
    if py_eq message_type (PStr "text") then
      call_endpoint st (WeChatMonitor.send_message target_user
                          (get wechat_msg "content" (PStr "")) "text")
    else if py_eq message_type (PStr "image") then
      let files := get wechat_msg "files" (PList []) in
      if truthy files then
        match first_item files with
        | Ok image_path => call_endpoint st (WeChatMonitor.send_image target_user image_path)
        | Err e => (st, Err e)
        end
      else (st, Ok false)
    else if py_eq message_type (PStr "file") then
      let files := get wechat_msg "files" (PList []) in
      if truthy files then
        match first_item files with
        | Ok file_path => call_endpoint st (WeChatMonitor.send_file target_user file_path)
        | Err e => (st, Err e)
        end
      else (st, Ok false)
    else if py_eq message_type (PStr "voice") then
      let files := get wechat_msg "files" (PList []) in
      if truthy files then
        match first_item files with
        | Ok voice_path =>
            call_endpoint st (WeChatMonitor.send_message target_user voice_path "voice")
        | Err e => (st, Err e)
        end
      else (st, Ok false)
    else
      call_endpoint st (WeChatMonitor.send_message target_user
                          (get wechat_msg "content" (PStr (py_str env (PDict wechat_msg))))
                          "text") in
  (fst attempt, try_except (snd attempt) (fun _ => false)).

Definition _parse_onebot_message_content (message user_id auto_escape : pyval) : dict :=
  let message' :=
    match message with
    | PStr s =>
        if truthy auto_escape then PList [text_segment s]
        else PList (_parse_cq_code s)
    | _ => message
    end in
  let onebot_msg : dict :=
    [("user_id", user_id); ("message", message'); ("time", PInt (now env))] in
  OneBotV11Converter.onebot_to_wechat env config onebot_msg.

Definition _handle_send_private_msg (st : state) (params echo : pyval) : state :=
  match params with
  | PDict p =>
      let user_id := get p "user_id" (PStr "") in
      let message := get p "message" (PStr "") in
      let auto_escape := get p "auto_escape" (PBool false) in
      if negb (truthy user_id) then
        send_api_response st echo PNone 1400 (PStr "user_id is required")
      else if negb (truthy message) then
        send_api_response st echo PNone 1400 (PStr "message is required")
      else
        let target_user := _find_user_by_id user_id in
        if negb (truthy target_user) then
          send_api_response st echo PNone 1404 (PStr "user not found")
        else
          let wechat_msg := _parse_onebot_message_content message user_id auto_escape in
          let (st, success) := _send_to_wechat st target_user wechat_msg in
          if success then
            let message_id := now_ms env in
            let st := send_api_response st echo (PDict [("message_id", PInt message_id)])
                                        0 (PStr "ok") in
            record_sent message_id (now env) st
          else
            send_api_response st echo PNone 1500 (PStr "send failed")
  | _ =>
      (* [params.get] raises, and the handler answers with the text of the
         exception *)
      send_api_response st echo PNone 1500 (PStr (exn_str (AttributeError params "get")))
  end.

Definition _handle_send_msg (st : state) (params echo : pyval) : state :=
  match py_get params "message_type" PNone with
  | Err e => send_api_response st echo PNone 1500 (PStr (exn_str e))
  | Ok message_type =>
      if py_eq message_type (PStr "private") then _handle_send_private_msg st params echo
      else if py_eq message_type (PStr "group") then
        send_api_response st echo PNone 1404 (PStr "group message not supported")
      else
        send_api_response st echo PNone 1400 (PStr "invalid message_type")
  end.

Definition _handle_api_request (st : state) (request : dict) : state :=
  let action := get request "action" (PStr "") in
  let params := get request "params" (PDict []) in
  let echo := get request "echo" (PStr "") in
  if py_eq action (PStr "send_private_msg") then _handle_send_private_msg st params echo
  else if py_eq action (PStr "send_group_msg") then
    match py_get params "group_id" (PStr "") with
    | Err _ => send_api_response st echo PNone 1500 (PStr "failed")
    | Ok _ => send_api_response st echo PNone 1404 (PStr "group message not supported")
    end
  else if py_eq action (PStr "send_msg") then _handle_send_msg st params echo
  else if py_eq action (PStr "get_login_info") then
    send_api_response st echo
      (PDict [("user_id", OneBotV11Converter.self_id config);
              ("nickname", PStr "WxAuto Bot")])
      0 (PStr "ok")
  else if py_eq action (PStr "get_status") then
    send_api_response st echo
      (PDict [("online", PBool (WebSocketClient.is_connected (client st)));
              ("good", PBool true)])
      0 (PStr "ok")
  else
    send_api_response st echo PNone 1404 (PStr "failed").

(** [_handle_api_response] only logs. *)
Definition _handle_api_response (st : state) (response : dict) : state := st.

Definition _handle_reply_message (st : state) (message : dict) : state :=
  if has_key "user_id" message
     && (has_key "message" message || has_key "content" message) then
    let user_id := get message "user_id" (PStr "") in
    let content := get message "message" (get message "content" (PStr "")) in
    let target_user := _find_user_by_id user_id in
    if negb (truthy target_user) then st
    else
      let wechat_msg : dict :=
        [("content", content); ("message_type", PStr "text");
         ("timestamp", PInt (now env))] in
      fst (_send_to_wechat st target_user wechat_msg)
  else st.

Definition _process_message (st : state) (message : dict) : state :=
  if has_key "action" message then _handle_api_request st message
  else if py_eq (get message "post_type" PNone) (PStr "message") then st
  else if has_key "echo" message then _handle_api_response st message
  else _handle_reply_message st message.

(** The body of [for user in monitored_users] in [handle_wechat_message]. *)
Definition names (user_name user : pyval) : bool :=
  match user with
  | PStr _ => py_eq user user_name
  | PDict d => py_eq (get d "nickname" PNone) user_name
  | _ => false
  end.

Definition handle_wechat_message (st : state) (wechat_msg : dict) : state :=
  let user_name := get wechat_msg "user_name" (PStr "") in
  match py_iter (ConfigManager.get config "wechat.monitor_users" (PList [])) with
  | Err _ => st
  | Ok monitored_users =>
      if existsb (names user_name) monitored_users then
        with_client
          (fst (WebSocketClient.send_wechat_message env config transmit (client st) wechat_msg))
          st
      else st
  end.

End Handler.

End MessageHandler.

(* ------------------------------------------------------------------ *)
(** * Notions used in the statements *)

(** Every character of [s] satisfies [p]. *)
Fixpoint str_all (p : ascii -> bool) (s : string) : bool :=
  match s with
  | EmptyString => true
  | String c s' => p c && str_all p s'
  end.

(** The strings the token pattern [\[CQ:([^,\]]+)(?:,([^\]]+))?\]] denotes:
    a non-empty type without comma or closing bracket, then optionally a
    comma and a non-empty parameter text without closing bracket. *)
Inductive cq_token : string -> Prop :=
| token_plain (ty : string) :
    ty <> "" -> str_all MessageHandler.is_type_char ty = true ->
    cq_token ("[CQ:" ++ ty ++ "]")
| token_params (ty ps : string) :
    ty <> "" -> str_all MessageHandler.is_type_char ty = true ->
    ps <> "" -> str_all MessageHandler.is_param_char ps = true ->
    cq_token ("[CQ:" ++ ty ++ "," ++ ps ++ "]").

(** [s] has a token somewhere inside. *)
Definition contains_token (s : string) : Prop :=
  exists pre tok post, cq_token tok /\ s = pre ++ tok ++ post.

(** The pattern matches at some offset of [s]. *)
Fixpoint has_token (s : string) : bool :=
  match s with
  | EmptyString => false
  | String _ s' =>
      match MessageHandler.match_here s with
      | Some _ => true
      | None => has_token s'
      end
  end.

(** An environment with an empty file system and a fixed clock. *)
Definition quiet_env : Env :=
  {| now := 1700000000;
     now_ms := 1700000000000;
     py_hash := fun _ => 0%Z;
     repr_container := fun _ => "";
     path_exists := fun _ => Ok false;
     read_base64 := fun p => Err (Raise "FileNotFoundError" p);
     stat_size := fun p => Err (Raise "FileNotFoundError" p);
     format_file_size := fun _ => "0 B";
     b64decode := fun s => Ok s;
     cache_path := fun _ name => Ok name;
     write_cache := fun _ _ => Ok tt |}.

(** The mapping list of the identity examples:
    [["alice", {"nickname": "bob", "user_id": "222"}]]. *)
Definition example_users : list pyval :=
  [PStr "alice"; PDict [("nickname", PStr "bob"); ("user_id", PStr "222")]].

Definition example_config : pyval :=
  PDict [("wechat", PDict [("monitor_users", PList example_users)])].

(** The mapping entry [entry] is an object whose identity equals [user_id]. *)
Definition maps_identity (user_id entry : pyval) : bool :=
  match entry with
  | PDict d => py_eq (get d "user_id" PNone) user_id
  | _ => false
  end.

(** The API response built by [send_api_response]. *)
Definition api_response (status : pyval) (retcode : Z) (data echo : pyval) : dict :=
  [("status", status); ("retcode", PInt retcode); ("data", data); ("echo", echo)].

(** [message] was passed to [send_message] in state [c], giving [c']: it
    went out on the socket, or it waits in the send queue. *)
Definition submitted (c c' : WebSocketClient.state) (message : dict) : Prop :=
  (WebSocketClient.trace c' = WebSocketClient.trace c ++ [WebSocketClient.Transmitted message]
   /\ WebSocketClient.send_queue c' = WebSocketClient.send_queue c)%list
  \/
  (WebSocketClient.trace c' = WebSocketClient.trace c
   /\ WebSocketClient.send_queue c' = WebSocketClient.send_queue c ++ [message])%list.

(** A connected client with a live socket, and a router around it. *)
Definition connected_client : WebSocketClient.state :=
  WebSocketClient.set_is_connected true
    (WebSocketClient.set_ws (Some (PStr "ws://localhost:10001/ws")) WebSocketClient.init).

Definition router0 : MessageHandler.state :=
  {| MessageHandler.client := connected_client;
     MessageHandler.sent_messages := [];
     MessageHandler.wechat_calls := [] |}.

(** [path] names no existing file: it is missing or empty, or the file system
    answers that nothing is there. *)
Definition no_existing_file (env : Env) (path : pyval) : Prop :=
  truthy path = false \/ exists p : string, path = PStr p /\ path_exists env p = Ok false.

Definition is_text_segment (seg : pyval) : bool :=
  match seg with
  | PDict d => py_eq (get d "type" PNone) (PStr "text")
  | _ => false
  end.

(** The invariant on segments as the specification words it: every event
    made from a chat message has a non-empty segment list with a text
    segment in it. *)
Definition every_event_has_text_segment : Prop :=
  forall (env : Env) (config : pyval) (wechat_msg : dict),
  exists segments : list pyval,
    get (OneBotV11Converter.wechat_to_onebot env config wechat_msg) "message" PNone
    = PList segments
    /\ segments <> []
    /\ existsb is_text_segment segments = true.

(** An image message as [_parse_message] builds it, for a picture saved under
    a path that is gone by the time of conversion. *)
Definition image_message : dict :=
  [("user_id", PStr "222");
   ("user_name", PStr "bob");
   ("message_id", PStr "m1");
   ("timestamp", PInt 1700000000);
   ("message_type", PStr "image");
   ("content", PStr "[图片]");
   ("image_path", PStr "cache/images/a.png");
   ("image_url", PStr "file://cache/images/a.png")].

(** ** Segment lists, read declaratively *)

(** [segment.get('type', 'text')] and [segment.get('data', {})] of a segment
    that is an object. *)
Definition seg_type (seg : pyval) : pyval :=
  match seg with
  | PDict d => get d "type" (PStr "text")
  | _ => PStr "text"
  end.

Definition seg_data (seg : pyval) : dict :=
  match seg with
  | PDict d => match get d "data" (PDict []) with PDict x => x | _ => [] end
  | _ => []
  end.

(** The segments the converter accepts: an object; its data an object
    whenever its type is one of the five the converter reads data of; and the
    text of a text segment a string. *)
Definition well_formed (seg : pyval) : bool :=
  match seg with
  | PDict d =>
      let t := get d "type" (PStr "text") in
      let data := get d "data" (PDict []) in
      if py_eq t (PStr "text") then
        match data with
        | PDict x => is_str (get x "text" (PStr ""))
        | _ => false
        end
      else if py_eq t (PStr "image") || py_eq t (PStr "record")
              || py_eq t (PStr "at") || py_eq t (PStr "face")
      then is_dict data
      else true
  | _ => false
  end.

(** What one segment contributes to the text content. *)
Definition flatten (env : Env) (seg : pyval) : string :=
  let t := seg_type seg in
  let x := seg_data seg in
  if py_eq t (PStr "text") then
    match get x "text" (PStr "") with PStr s => s | _ => "" end
  else if py_eq t (PStr "image") then "[图片]"
  else if py_eq t (PStr "record") then "[语音]"
  else if py_eq t (PStr "at") then "@" ++ py_str env (get x "qq" (PStr ""))
  else if py_eq t (PStr "face") then "[表情" ++ py_str env (get x "id" (PStr "")) ++ "]"
  else "[" ++ py_str env t ++ "]".

(** The attachment an image or record segment resolves to, with the kind it
    stands for; [None] when the segment is of another type or its file cannot
    be resolved. *)
Definition attachment (env : Env) (config : pyval) (seg : pyval) : option (string * pyval) :=
  let t := seg_type seg in
  let x := seg_data seg in
  if py_eq t (PStr "text") then None
  else if py_eq t (PStr "image") then
    let p := OneBotV11Converter._process_image_file env config (get x "file" (PStr "")) in
    if truthy p then Some ("image", p) else None
  else if py_eq t (PStr "record") then
    let p := OneBotV11Converter._process_voice_file env config (get x "file" (PStr "")) in
    if truthy p then Some ("voice", p) else None
  else None.

Fixpoint attachments (env : Env) (config : pyval) (message : list pyval) : list (string * pyval) :=
  match message with
  | [] => []
  | seg :: rest =>
      match attachment env config seg with
      | Some a => a :: attachments env config rest
      | None => attachments env config rest
      end
  end.

(** The kind of the last resolved attachment, [init] when there is none. *)
Definition last_kind (init : pyval) (atts : list (string * pyval)) : pyval :=
  fold_left (fun _ a => PStr (fst a)) atts init.

(** A flattened part counts as text when it is not blank and does not start
    with an opening bracket. *)
Definition plain_text (s : string) : bool :=
  negb (Str.is_blank s) && negb (Str.startswith "[" s).

(** The kind of the converted message. *)
Definition kind_of_message (env : Env) (config : pyval) (message : list pyval) : pyval :=
  match attachments env config message with
  | [(k, p)] =>
      if existsb plain_text (map (flatten env) message) then PStr k
      else OneBotV11Converter.kind_of_path p
  | atts => last_kind (PStr "text") atts
  end.

(** The condition of the specification, in its words: exactly one segment
    that is an attachment (image or record), and no text segment with text in
    it. *)
Definition is_attachment_segment (seg : pyval) : bool :=
  py_eq (seg_type seg) (PStr "image") || py_eq (seg_type seg) (PStr "record").

Definition is_nonempty_text_segment (seg : pyval) : bool :=
  py_eq (seg_type seg) (PStr "text") && truthy (get (seg_data seg) "text" (PStr "")).

Definition lone_attachment (message : list pyval) : bool :=
  Nat.eqb (List.length (filter is_attachment_segment message)) 1
  && negb (existsb is_nonempty_text_segment message).

(** The second half of the rule as the specification words it: outside the
    lone-attachment case the kind is [text]. *)
Definition kind_defaults_to_text : Prop :=
  forall (env : Env) (config : pyval) (message : list pyval) (parsed : dict),
    OneBotV11Converter._parse_onebot_message env config message = Ok parsed ->
    lone_attachment message = false ->
    get parsed "message_type" PNone = PStr "text".

(** A greeting followed by a picture given by its address. *)
Definition greeting_with_picture : list pyval :=
  [PDict [("type", PStr "text"); ("data", PDict [("text", PStr "hello")])];
   PDict [("type", PStr "image"); ("data", PDict [("file", PStr "http://host/a.png")])]].

(** ** The socket client, observed *)

Definition is_connect_attempt (e : WebSocketClient.event) : bool :=
  match e with
  | WebSocketClient.ConnectAttempt _ => true
  | _ => false
  end.

(** Number of connection attempts recorded in a trace. *)
Definition connect_attempts (t : list WebSocketClient.event) : nat :=
  List.length (filter is_connect_attempt t).

Definition is_thread_start (e : WebSocketClient.event) : bool :=
  match e with
  | WebSocketClient.ThreadStarted _ => true
  | _ => false
  end.

(** Number of threads started in a trace. *)
Definition threads_started (t : list WebSocketClient.event) : nat :=
  List.length (filter is_thread_start t).

(** A connection attempt that fails: [run_forever] reports the error and the
    close, and returns. *)
Definition refused : WebSocketClient.outcome :=
  WebSocketClient.Runs [WebSocketClient.WsError; WebSocketClient.WsClose].

(** The default address of [config_manager.py]. *)
Definition default_config : pyval :=
  PDict [("onebot", PDict [("ws_url", PStr "ws://localhost:10001/ws")])].

(** A fresh client after [start()]. *)
Definition started_client : WebSocketClient.state :=
  fst (WebSocketClient.start default_config WebSocketClient.init).

(** What [span] leaves behind does not start with a character of the class. *)
Definition stops (p : ascii -> bool) (b : string) : Prop :=
  match b with
  | EmptyString => True
  | String c _ => p c = false
  end.

(** The state after one turn of [_connect_loop] whose attempt is refused. *)
Definition after_refusal (st : WebSocketClient.state) : WebSocketClient.state :=
  WebSocketClient.emit (WebSocketClient.Slept 1)
    (WebSocketClient._on_close
       (WebSocketClient.emit (WebSocketClient.ConnectAttempt (WebSocketClient.ws_url st))
          (WebSocketClient.set_ws (Some (WebSocketClient.ws_url st)) st))).

(** ** Further notions *)

(** Every value of the dict is a string. *)
Definition str_valued (d : dict) : bool :=
  forallb (fun kv => is_str (snd kv)) d.

(** The token text for a type and optional parameter text. *)
Definition token_text (ty : string) (ps : option string) : string :=
  "[CQ:" ++ ty ++ match ps with Some p => "," ++ p | None => "" end ++ "]".

(** The groups are those of a token. *)
Definition token_groups (ty : string) (ps : option string) : Prop :=
  ty <> "" /\ str_all MessageHandler.is_type_char ty = true
  /\ match ps with
     | Some p => p <> "" /\ str_all MessageHandler.is_param_char p = true
     | None => True
     end.

(** The text segment for [text], or nothing when [text] is empty. *)
Definition text_segments (text : string) : list pyval :=
  if String.eqb text "" then [] else [MessageHandler.text_segment text].

(** The segments a string message is read as by
    [_parse_onebot_message_content]. *)
Definition segments_of_string (s : string) (auto_escape : pyval) : list pyval :=
  if truthy auto_escape then [MessageHandler.text_segment s]
  else MessageHandler._parse_cq_code s.

(** An environment in which every path names a readable two-byte file. *)
Definition stocked_env : Env :=
  {| now := 1700000000;
     now_ms := 1700000000000;
     py_hash := fun _ => 0%Z;
     repr_container := fun _ => "";
     path_exists := fun _ => Ok true;
     read_base64 := fun _ => Ok "aGk=";
     stat_size := fun _ => Ok 2%Z;
     format_file_size := fun _ => "2.0 B";
     b64decode := fun s => Ok s;
     cache_path := fun _ name => Ok name;
     write_cache := fun _ _ => Ok tt |}.

(** Sending a list of messages one after the other. *)
Definition send_all (transmit : dict -> result unit) (st : WebSocketClient.state)
           (messages : list dict) : WebSocketClient.state :=
  fold_left (fun s m => fst (WebSocketClient.send_message transmit s m)) messages st.

(** The events by which the messages go out on the socket. *)
Definition transmitted (messages : list dict) : list WebSocketClient.event :=
  map WebSocketClient.Transmitted messages.

(** The client after the raw frames were received in order. *)
Definition receive_all (json_loads : string -> result pyval) (st : WebSocketClient.state)
           (raws : list string) : WebSocketClient.state :=
  fold_left (WebSocketClient._on_message json_loads) raws st.

(** A connection attempt that succeeds and stays open. *)
Definition accepted : WebSocketClient.outcome :=
  WebSocketClient.Runs [WebSocketClient.WsOpen].



(** Display name and identity of a mapping entry in one of the two accepted
    shapes, both strings. *)
Definition entry_pair (entry : pyval) : option (string * string) :=
  match entry with
  | PStr name => Some (name, name)
  | PDict d =>
      match get d "nickname" PNone, get d "user_id" PNone with
      | PStr name, PStr user_id => Some (name, user_id)
      | _, _ => None
      end
  | _ => None
  end.

(** [users] is a mapping list whose entries read as [pairs], with no display
    name and no identity occurring twice. *)
Definition mapping_of (users : list pyval) (pairs : list (string * string)) : Prop :=
  map entry_pair users = map Some pairs
  /\ NoDup (map fst pairs)
  /\ NoDup (map snd pairs).

(** The test [path and Path(path).exists()] of the attachment converters
    raises: [path] is truthy and no string, or the file system refuses to
    answer.  The conversion then fails and the error event is made. *)
Definition check_raises (env : Env) (path : pyval) : bool :=
  match OneBotV11Converter.and_exists env path with
  | Err _ => true
  | Ok _ => false
  end.

(** The mapping entry [entry] is the bare name [nickname], or an object whose
    display name equals [nickname]. *)
Definition maps_name (nickname entry : pyval) : bool :=
  match entry with
  | PStr _ => py_eq entry nickname
  | PDict d => py_eq (get d "nickname" PNone) nickname
  | _ => false
  end.

(* ------------------------------------------------------------------ *)
(** * Properties *)

(** ** Strings *)

Lemma append_nil_r (s : string) : s ++ "" = s.
Proof.
  induction s as [|c s IH]; simpl; [reflexivity | now rewrite IH].
Qed.

Lemma append_assoc (a b c : string) : (a ++ b) ++ c = a ++ b ++ c.
Proof.
  induction a as [|x a IH]; simpl; [reflexivity | now rewrite IH].
Qed.

Lemma length_append (a b : string) :
  String.length (a ++ b) = String.length a + String.length b.
Proof.
  induction a as [|x a IH]; simpl; [reflexivity | now rewrite IH].
Qed.

Lemma substring_all (s : string) : substring 0 (String.length s) s = s.
Proof.
  induction s as [|c s IH]; simpl; [reflexivity | now rewrite IH].
Qed.

Lemma drop_append (a b : string) : Str.drop (String.length a) (a ++ b) = b.
Proof.
  induction a as [|x a IH]; simpl; [now destruct b | exact IH].
Qed.

Lemma drop_all (n : nat) (s : string) :
  String.length s <= n -> Str.drop n s = "".
Proof.
  revert n; induction s as [|c s IH]; intros [|n] H; simpl in *;
    try reflexivity; try lia.
  apply IH; lia.
Qed.

Lemma str_eqb_false_cons (c : ascii) (s : string) : String.eqb (String c s) "" = false.
Proof. reflexivity. Qed.

(** ** The scanner *)

Section Scanner.

Import MessageHandler.

Lemma span_spec (p : ascii -> bool) (s a b : string) :
  span p s = (a, b) -> s = a ++ b /\ str_all p a = true /\ stops p b.
Proof.
  revert a b; induction s as [|c s IH]; intros a b H; simpl in H.
  - inversion H; subst; simpl; auto.
  - destruct (p c) eqn:Hc.
    + destruct (span p s) as [a' b'] eqn:Hs. inversion H; subst.
      destruct (IH a' b eq_refl) as (E & Ha & Hb).
      simpl. rewrite Hc, Ha. subst s. auto.
    + inversion H; subst. simpl. auto.
Qed.

Lemma span_append (p : ascii -> bool) (a b : string) :
  str_all p a = true -> stops p b -> span p (a ++ b) = (a, b).
Proof.
  induction a as [|c a IH]; simpl; intros Ha Hb.
  - destruct b as [|x b]; simpl in *; [reflexivity | now rewrite Hb].
  - apply andb_true_iff in Ha as [Hc Ha]. rewrite Hc, (IH Ha Hb). reflexivity.
Qed.

Lemma strip_prefix_spec (p s r : string) :
  strip_prefix p s = Some r <-> s = p ++ r.
Proof.
  revert s; induction p as [|a p IH]; intros s; simpl.
  - split; intros H; [now inversion H | now subst].
  - destruct s as [|b s].
    + split; intros H; discriminate.
    + destruct (Ascii.eqb a b) eqn:E.
      * apply Ascii.eqb_eq in E; subst b. rewrite IH.
        split; intros H; [now subst | now inversion H].
      * apply Ascii.eqb_neq in E. split; intros H; [discriminate|].
        inversion H; congruence.
Qed.

(** A successful attempt consumed a token of the pattern, of the stated
    length, with the groups the token is made of. *)
Lemma match_here_sound (s ty : string) (ps : option string) (n : nat) :
  match_here s = Some (ty, ps, n) ->
  exists tok rest,
    s = tok ++ rest /\ cq_token tok /\ n = String.length tok /\
    tok = "[CQ:" ++ ty ++ match ps with Some p => "," ++ p | None => "" end ++ "]".
Proof.
  unfold match_here.
  destruct (strip_prefix "[CQ:" s) as [s1|] eqn:H1; [|discriminate].
  apply strip_prefix_spec in H1.
  destruct (span is_type_char s1) as [t s2] eqn:H2.
  apply span_spec in H2 as (E2 & Ht & _).
  destruct t as [|t0 t]; [discriminate|].
  destruct s2 as [|c s3]; [discriminate|].
  destruct (Ascii.eqb c "]") eqn:Hc.
  - apply Ascii.eqb_eq in Hc; subst c. intros H; inversion H; subst; clear H.
    exists ("[CQ:" ++ String t0 t ++ "]"), s3. repeat split.
    + simpl. now rewrite append_assoc.
    + apply token_plain; [discriminate | exact Ht].
    + simpl. rewrite length_append. simpl. lia.
  - destruct (Ascii.eqb c ",") eqn:Hc'; [|discriminate].
    apply Ascii.eqb_eq in Hc'; subst c.
    destruct (span is_param_char s3) as [p s4] eqn:H3.
    apply span_spec in H3 as (E3 & Hp & Hstop).
    destruct p as [|p0 p]; [discriminate|].
    destruct s4 as [|d s5]; [discriminate|].
    intros H; inversion H; subst; clear H.
    simpl in Hstop. unfold is_param_char in Hstop.
    apply negb_false_iff, Ascii.eqb_eq in Hstop; subst d.
    exists ("[CQ:" ++ String t0 t ++ "," ++ String p0 p ++ "]"), s5. repeat split.
    + simpl. rewrite append_assoc. simpl. now rewrite append_assoc.
    + apply token_params; try discriminate; assumption.
    + simpl. rewrite length_append. simpl. rewrite length_append. simpl. lia.
Qed.

(** Conversely the attempt succeeds wherever a token starts. *)
Lemma match_here_complete (tok post : string) :
  cq_token tok -> exists g, match_here (tok ++ post) = Some g.
Proof.
  intros [ty Hne Hty | ty ps Hne Hty Hpne Hps]; unfold match_here.
  - replace (("[CQ:" ++ ty ++ "]") ++ post) with ("[CQ:" ++ ty ++ String "]" post)
      by (simpl; now rewrite append_assoc).
    destruct (strip_prefix "[CQ:" ("[CQ:" ++ ty ++ String "]" post)) as [s1|] eqn:H1.
    2:{ assert (H : strip_prefix "[CQ:" ("[CQ:" ++ ty ++ String "]" post)
                    = Some (ty ++ String "]" post)) by now apply strip_prefix_spec.
        congruence. }
    apply strip_prefix_spec in H1. simpl in H1. inversion H1; subst s1.
    rewrite (span_append is_type_char ty (String "]" post) Hty eq_refl).
    destruct ty as [|t0 t]; [congruence|]. simpl. eauto.
  - replace (("[CQ:" ++ ty ++ "," ++ ps ++ "]") ++ post)
      with ("[CQ:" ++ ty ++ String "," (ps ++ String "]" post))
      by (simpl; rewrite append_assoc; simpl; now rewrite append_assoc).
    destruct (strip_prefix "[CQ:" ("[CQ:" ++ ty ++ String "," (ps ++ String "]" post)))
      as [s1|] eqn:H1.
    2:{ assert (H : strip_prefix "[CQ:" ("[CQ:" ++ ty ++ String "," (ps ++ String "]" post))
                    = Some (ty ++ String "," (ps ++ String "]" post)))
          by now apply strip_prefix_spec.
        congruence. }
    apply strip_prefix_spec in H1. simpl in H1. inversion H1; subst s1.
    rewrite (span_append is_type_char ty (String "," (ps ++ String "]" post)) Hty eq_refl).
    destruct ty as [|t0 t]; [congruence|]. simpl.
    rewrite (span_append is_param_char ps (String "]" post) Hps eq_refl).
    destruct ps as [|p0 p]; [congruence|]. eauto.
Qed.

Lemma has_token_sound (s : string) : has_token s = true -> contains_token s.
Proof.
  induction s as [|c s IH]; simpl; [discriminate|].
  destruct (match_here (String c s)) as [[[ty ps] n]|] eqn:H.
  - intros _. apply match_here_sound in H as (tok & rest & E & Htok & _).
    exists "", tok, rest. now rewrite E.
  - intros Hs. destruct (IH Hs) as (pre & tok & post & Htok & E).
    exists (String c pre), tok, post. subst s. auto.
Qed.

Lemma has_token_complete (s : string) : contains_token s -> has_token s = true.
Proof.
  intros (pre & tok & post & Htok & E). subst s.
  induction pre as [|c pre IH].
  - simpl. destruct (match_here_complete tok post Htok) as [g Hg].
    destruct (tok ++ post) as [|c r] eqn:E.
    + unfold match_here in Hg; simpl in Hg; discriminate.
    + simpl. now rewrite Hg.
  - simpl. destruct (match_here (String c (pre ++ tok ++ post))); [reflexivity | exact IH].
Qed.

(** Whether a string contains a token is decided by running the matcher at
    every offset. *)
Lemma no_token_decide (s : string) : has_token s = false -> ~ contains_token s.
Proof.
  intros H C. apply has_token_complete in C. congruence.
Qed.

Lemma finditer_from_none (pos : nat) (s : string) :
  has_token s = false -> finditer_from pos 0 s = [].
Proof.
  revert pos; induction s as [|c s IH]; intros pos H; simpl in *; [reflexivity|].
  destruct (match_here (String c s)); [discriminate | now apply IH].
Qed.

Lemma finditer_from_skip (pos skip : nat) (s : string) :
  String.length s <= skip -> finditer_from pos skip s = [].
Proof.
  revert pos skip; induction s as [|c s IH]; intros pos [|k] H; simpl in *;
    try reflexivity; try lia.
  apply IH; lia.
Qed.

Lemma parse_without_match (s : string) :
  finditer s = [] -> _parse_cq_code s = [text_segment s].
Proof.
  intros H. unfold _parse_cq_code. rewrite H. simpl.
  destruct s as [|c s]; reflexivity.
Qed.

End Scanner.

(** ** C1 *)

(** C1.  A string that contains no token of the form [[CQ:...]] is parsed
    into exactly one text segment holding the whole string, and flattening
    that result again ([_parse_onebot_message], which joins the text of the
    segments) gives the string back, with kind [text] and no attachment. *)
Theorem parse_plain_text_roundtrip (env : Env) (config : pyval) (s : string) :
  ~ contains_token s ->
  MessageHandler._parse_cq_code s = [MessageHandler.text_segment s] /\
  OneBotV11Converter._parse_onebot_message env config (MessageHandler._parse_cq_code s)
  = Ok [("content", PStr s); ("message_type", PStr "text"); ("files", PList [])].
Proof.
  intros Hno.
  assert (Hs : has_token s = false).
  { destruct (has_token s) eqn:E; [|reflexivity].
    exfalso. apply Hno. now apply has_token_sound. }
  assert (Hp : MessageHandler._parse_cq_code s = [MessageHandler.text_segment s]).
  { apply parse_without_match. unfold MessageHandler.finditer.
    now apply finditer_from_none. }
  split; [exact Hp|].
  rewrite Hp. unfold OneBotV11Converter._parse_onebot_message. simpl.
  now rewrite append_nil_r.
Qed.

Lemma parse_plain_text_roundtrip_witness :
  ~ contains_token "hello [CQ:oops" /\
  MessageHandler._parse_cq_code "hello [CQ:oops"
  = [MessageHandler.text_segment "hello [CQ:oops"].
Proof.
  assert (H : ~ contains_token "hello [CQ:oops")
    by (apply no_token_decide; vm_compute; reflexivity).
  split; [exact H|].
  exact (proj1 (parse_plain_text_roundtrip quiet_env PNone "hello [CQ:oops" H)).
Defined.

(** ** C10 *)

Section Parameters.

Import MessageHandler.

Lemma match_here_plain (ty post : string) :
  ty <> "" -> str_all is_type_char ty = true ->
  match_here ("[CQ:" ++ ty ++ String "]" post)
  = Some (ty, None, 4 + String.length ty + 1).
Proof.
  intros Hne Hty. unfold match_here.
  assert (H : strip_prefix "[CQ:" ("[CQ:" ++ ty ++ String "]" post)
              = Some (ty ++ String "]" post)) by now apply strip_prefix_spec.
  rewrite H.
  rewrite (span_append is_type_char ty (String "]" post) Hty eq_refl).
  destruct ty as [|t0 t]; [congruence | reflexivity].
Qed.

Lemma match_here_params (ty ps post : string) :
  ty <> "" -> str_all is_type_char ty = true ->
  ps <> "" -> str_all is_param_char ps = true ->
  match_here ("[CQ:" ++ ty ++ String "," (ps ++ String "]" post))
  = Some (ty, Some ps, 4 + String.length ty + 1 + String.length ps + 1).
Proof.
  intros Hne Hty Hpne Hps. unfold match_here.
  assert (H : strip_prefix "[CQ:" ("[CQ:" ++ ty ++ String "," (ps ++ String "]" post))
              = Some (ty ++ String "," (ps ++ String "]" post)))
    by now apply strip_prefix_spec.
  rewrite H.
  rewrite (span_append is_type_char ty (String "," (ps ++ String "]" post)) Hty eq_refl).
  destruct ty as [|t0 t]; [congruence|].
  cbn [Ascii.eqb]. simpl.
  rewrite (span_append is_param_char ps (String "]" post) Hps eq_refl).
  destruct ps as [|p0 p]; [congruence | reflexivity].
Qed.

Lemma split_without_sep (c : ascii) (x : string) :
  Str.contains c x = false -> Str.split c x = [x].
Proof.
  induction x as [|a x IH]; simpl; [reflexivity|].
  intros H. apply orb_false_iff in H as [Ha Hx].
  rewrite Ha, (IH Hx). reflexivity.
Qed.

Lemma split_append (c : ascii) (x rest : string) :
  Str.contains c x = false ->
  Str.split c (x ++ String c rest) = x :: Str.split c rest.
Proof.
  induction x as [|a x IH]; simpl.
  - intros _. now rewrite Ascii.eqb_refl.
  - intros H. apply orb_false_iff in H as [Ha Hx].
    rewrite Ha, (IH Hx). reflexivity.
Qed.

Lemma concat_cons2 (sep x y : string) (r : list string) :
  String.concat sep (x :: y :: r) = x ++ sep ++ String.concat sep (y :: r).
Proof. reflexivity. Qed.

(** Splitting on commas undoes joining with commas. *)
Lemma split_join (items : list string) :
  items <> [] ->
  Forall (fun it => Str.contains "," it = false) items ->
  Str.split "," (Str.join_with "," items) = items.
Proof.
  intros Hne Hall. induction Hall as [|x r Hx Hr IH]; [congruence|].
  destruct r as [|y r].
  - simpl. now apply split_without_sep.
  - unfold Str.join_with in *. rewrite concat_cons2.
    change ("," ++ String.concat "," (y :: r)) with (String "," (String.concat "," (y :: r))).
    rewrite split_append by exact Hx. f_equal. apply IH. discriminate.
Qed.

Lemma str_all_append (p : ascii -> bool) (a b : string) :
  str_all p (a ++ b) = str_all p a && str_all p b.
Proof.
  induction a as [|c a IH]; simpl; [reflexivity|].
  now rewrite IH, andb_assoc.
Qed.

Lemma no_bracket_param (s : string) :
  Str.contains "]" s = false -> str_all is_param_char s = true.
Proof.
  induction s as [|c s IH]; simpl; [reflexivity|].
  intros H. apply orb_false_iff in H as [Hc Hs].
  unfold is_param_char at 1. rewrite Hc, (IH Hs). reflexivity.
Qed.

Lemma join_no_bracket (items : list string) :
  Forall (fun it => Str.contains "]" it = false) items ->
  str_all is_param_char (Str.join_with "," items) = true.
Proof.
  intros Hall. induction Hall as [|x r Hx Hr IH]; [reflexivity|].
  destruct r as [|y r].
  - simpl. now apply no_bracket_param.
  - unfold Str.join_with in *. rewrite concat_cons2.
    rewrite str_all_append, (no_bracket_param x Hx).
    change ("," ++ String.concat "," (y :: r)) with (String "," (String.concat "," (y :: r))).
    cbn [str_all]. rewrite IH. reflexivity.
Qed.

Lemma split1_at_first (c : ascii) (k v : string) :
  Str.contains c k = false -> Str.split1 c (k ++ String c v) = [k; v].
Proof.
  induction k as [|a k IH]; simpl.
  - intros _. now rewrite Ascii.eqb_refl.
  - intros H. apply orb_false_iff in H as [Ha Hk].
    rewrite Ha, (IH Hk). reflexivity.
Qed.

Lemma contains_append (c : ascii) (a b : string) :
  Str.contains c (a ++ b) = Str.contains c a || Str.contains c b.
Proof.
  induction a as [|x a IH]; simpl; [reflexivity|].
  now rewrite IH, orb_assoc.
Qed.

(** The only match in a string that is one token with parameters. *)
Lemma finditer_single_token (ty ps : string) :
  ty <> "" -> str_all is_type_char ty = true ->
  ps <> "" -> str_all is_param_char ps = true ->
  finditer ("[CQ:" ++ ty ++ "," ++ ps ++ "]")
  = [{| m_start := 0;
        m_end := String.length ("[CQ:" ++ ty ++ "," ++ ps ++ "]");
        group1 := ty;
        group2 := Some ps |}].
Proof.
  intros Hne Hty Hpne Hps.
  pose proof (match_here_params ty ps "" Hne Hty Hpne Hps) as Hm.
  change ("[CQ:" ++ ty ++ "," ++ ps ++ "]")
    with (String "[" ("CQ:" ++ ty ++ String "," (ps ++ "]"))).
  change ("[CQ:" ++ ty ++ String "," (ps ++ "]"))
    with (String "[" ("CQ:" ++ ty ++ String "," (ps ++ "]"))) in Hm.
  assert (Htail : String.length ("CQ:" ++ ty ++ String "," (ps ++ "]"))
                  = 3 + String.length ty + 1 + String.length ps + 1).
  { simpl. rewrite length_append. simpl. rewrite length_append. simpl. lia. }
  unfold finditer. cbn [finditer_from]. rewrite Hm.
  cbn [String.length]. rewrite Htail.
  rewrite finditer_from_skip by (rewrite Htail; lia).
  repeat f_equal; lia.
Qed.

End Parameters.

(** C10.  For a token [[CQ:ty,item1,...,itemn]] the parser produces one
    segment of type [ty] whose mapping is built from the items in order;
    an item without ['='] leaves the mapping as it is, and an item with
    ['='] binds the text before its first ['='] to everything after it,
    further ['='] characters included. *)
Theorem cq_parameter_items (ty : string) (items : list string) :
  ty <> "" -> str_all MessageHandler.is_type_char ty = true ->
  items <> [] -> Str.join_with "," items <> "" ->
  Forall (fun it => Str.contains "," it = false) items ->
  Forall (fun it => Str.contains "]" it = false) items ->
  MessageHandler._parse_cq_code ("[CQ:" ++ ty ++ "," ++ Str.join_with "," items ++ "]")
  = [PDict [("type", PStr ty);
            ("data", PDict (fold_left MessageHandler.add_param items []))]]
  /\ (forall (d : dict) (it : string),
        Str.contains "=" it = false -> MessageHandler.add_param d it = d)
  /\ (forall (d : dict) (k v : string),
        Str.contains "=" k = false ->
        MessageHandler.add_param d (k ++ "=" ++ v) = dict_set k (PStr v) d).
Proof.
  intros Hne Hty Hitems Hps Hcomma Hbracket.
  split; [|split].
  - unfold MessageHandler._parse_cq_code.
    rewrite (finditer_single_token ty (Str.join_with "," items) Hne Hty Hps
               (join_no_bracket items Hbracket)).
    cbn [fold_left MessageHandler.cq_step MessageHandler.m_start MessageHandler.m_end
         MessageHandler.group1 MessageHandler.group2].
    rewrite !Nat.ltb_irrefl.
    unfold MessageHandler.parse_params.
    destruct (String.eqb (Str.join_with "," items) "") eqn:E.
    + apply String.eqb_eq in E. congruence.
    + cbn [negb app]. rewrite E. cbn [negb].
      rewrite (split_join items Hitems Hcomma). reflexivity.
  - intros d it H. unfold MessageHandler.add_param. now rewrite H.
  - intros d k v H. unfold MessageHandler.add_param.
    change (k ++ "=" ++ v) with (k ++ String "=" v).
    rewrite contains_append, H. cbn [Str.contains orb].
    rewrite Ascii.eqb_refl. cbn [orb].
    now rewrite (split1_at_first "=" k v H).
Qed.

Lemma cq_parameter_items_witness :
  MessageHandler._parse_cq_code "[CQ:image,file=a=b,flag,k=v]"
  = [PDict [("type", PStr "image");
            ("data", PDict [("file", PStr "a=b"); ("k", PStr "v")])]].
Proof.
  refine (proj1 (cq_parameter_items "image" ["file=a=b"; "flag"; "k=v"] _ _ _ _ _ _));
    try discriminate; try reflexivity;
    repeat constructor.
Defined.

(** ** C9 *)

(** C9.  Polling an empty inbound queue answers [None] and leaves the client
    as it is; polling a non-empty queue answers its head and removes it, and
    the head is the oldest frame because the receive path appends at the
    other end. *)
Theorem poll_received_message (st : WebSocketClient.state) :
  (WebSocketClient.receive_queue st = [] ->
   WebSocketClient.get_received_message st = (st, PNone))
  /\ (forall (frame : pyval) (rest : list pyval),
        WebSocketClient.receive_queue st = frame :: rest ->
        WebSocketClient.get_received_message st
        = (WebSocketClient.set_receive_queue rest st, frame))
  /\ (forall (json_loads : string -> result pyval) (raw : string) (d : dict),
        json_loads raw = Ok (PDict d) ->
        WebSocketClient.receive_queue (WebSocketClient._on_message json_loads st raw)
        = (WebSocketClient.receive_queue st ++ [PDict d])%list).
Proof.
  split; [|split].
  - intros H. unfold WebSocketClient.get_received_message. now rewrite H.
  - intros frame rest H. unfold WebSocketClient.get_received_message. now rewrite H.
  - intros json_loads raw d H. unfold WebSocketClient._on_message. rewrite H. simpl.
    destruct (WebSocketClient.on_message_callback st); reflexivity.
Qed.

Lemma poll_received_message_witness :
  WebSocketClient.get_received_message WebSocketClient.init
  = (WebSocketClient.init, PNone)
  /\ WebSocketClient.get_received_message
       (WebSocketClient.set_receive_queue
          [PDict [("action", PStr "get_status")]; PDict [("echo", PStr "e")]]
          WebSocketClient.init)
     = (WebSocketClient.set_receive_queue [PDict [("echo", PStr "e")]]
          (WebSocketClient.set_receive_queue
             [PDict [("action", PStr "get_status")]; PDict [("echo", PStr "e")]]
             WebSocketClient.init),
        PDict [("action", PStr "get_status")]).
Proof.
  split.
  - apply (proj1 (poll_received_message WebSocketClient.init)). reflexivity.
  - apply (proj1 (proj2 (poll_received_message _))). reflexivity.
Defined.

(** ** C6 *)

Lemma find_user_loop_fallback (users : list pyval) (user_id : pyval) :
  forallb (fun entry => negb (maps_identity user_id entry)) users = true ->
  MessageHandler.find_user_loop users user_id = user_id.
Proof.
  induction users as [|u users IH]; simpl; [reflexivity|].
  intros H. apply andb_true_iff in H as [Hu Hrest].
  destruct u; try (now apply IH).
  simpl in Hu. apply negb_true_iff in Hu. rewrite Hu. now apply IH.
Qed.

Section Identities.

Variable env : Env.

Lemma entry_pair_inv (e : pyval) (n u : string) :
  entry_pair e = Some (n, u) ->
  (e = PStr n /\ u = n)
  \/ exists d : dict,
       e = PDict d /\ get d "nickname" PNone = PStr n /\ get d "user_id" PNone = PStr u.
Proof.
  destruct e as [| | |s| |d]; simpl; try discriminate.
  - intros H. inversion H. auto.
  - destruct (get d "nickname" PNone) eqn:Hn; try discriminate.
    destruct (get d "user_id" PNone) eqn:Hu; try discriminate.
    intros H. inversion H; subst. right. exists d. auto.
Qed.

Lemma get_present (d : dict) (k : string) (default : pyval) (s : string) :
  get d k PNone = PStr s -> get d k default = PStr s.
Proof.
  unfold get. destruct (dict_get k d); [auto | discriminate].
Qed.

Lemma py_eq_str (a b : string) : py_eq (PStr a) (PStr b) = String.eqb a b.
Proof. reflexivity. Qed.

Lemma user_id_loop_spec (pairs : list (string * string)) (users : list pyval) (n u : string) :
  map entry_pair users = map Some pairs ->
  NoDup (map fst pairs) ->
  In (n, u) pairs ->
  WeChatMonitor.user_id_loop env users (PStr n) = PStr u.
Proof.
  revert users. induction pairs as [|[n0 u0] pairs IH]; intros users Hmap Hnd Hin;
    [contradiction|].
  destruct users as [|e users]; [discriminate|].
  cbn [map] in Hmap. inversion Hmap as [[He Hrest]]. clear Hmap.
  cbn [map fst] in Hnd. inversion Hnd as [|x l Hnotin Hnd']; subst.
  destruct Hin as [Heq|Hin].
  - inversion Heq; subst n0 u0.
    destruct (entry_pair_inv e n u He) as [[-> ->] | (d & -> & Hnick & Huid)].
    + simpl. now rewrite String.eqb_refl.
    + cbn [WeChatMonitor.user_id_loop]. rewrite Hnick, py_eq_str, String.eqb_refl.
      rewrite (get_present d "user_id" (PStr n) u Huid). reflexivity.
  - assert (Hne : String.eqb n0 n = false).
    { apply String.eqb_neq. intros ->. apply Hnotin.
      now apply (in_map fst pairs (n, u)). }
    destruct (entry_pair_inv e n0 u0 He) as [[-> ->] | (d & -> & Hnick & Huid)].
    + cbn [WeChatMonitor.user_id_loop]. rewrite py_eq_str, Hne. now apply IH.
    + cbn [WeChatMonitor.user_id_loop]. rewrite Hnick, py_eq_str, Hne. now apply IH.
Qed.

Lemma no_entry_with_identity (pairs : list (string * string)) (users : list pyval) (u : string) :
  map entry_pair users = map Some pairs ->
  ~ In u (map snd pairs) ->
  forallb (fun entry => negb (maps_identity (PStr u) entry)) users = true.
Proof.
  revert users. induction pairs as [|[n0 u0] pairs IH]; intros users Hmap Hnotin.
  - destruct users; [reflexivity | discriminate].
  - destruct users as [|e users]; [discriminate|].
    cbn [map] in Hmap. inversion Hmap as [[He Hrest]]. clear Hmap.
    cbn [forallb]. rewrite (IH users Hrest) by (intros H; apply Hnotin; now right).
    rewrite andb_true_r.
    destruct (entry_pair_inv e n0 u0 He) as [[-> ->] | (d & -> & Hnick & Huid)];
      [reflexivity|].
    cbn [maps_identity]. rewrite Huid, py_eq_str.
    apply negb_true_iff, String.eqb_neq. intros ->. apply Hnotin. now left.
Qed.

Lemma find_user_loop_spec (pairs : list (string * string)) (users : list pyval) (n u : string) :
  map entry_pair users = map Some pairs ->
  NoDup (map snd pairs) ->
  In (n, u) pairs ->
  MessageHandler.find_user_loop users (PStr u) = PStr n.
Proof.
  revert users. induction pairs as [|[n0 u0] pairs IH]; intros users Hmap Hnd Hin;
    [contradiction|].
  destruct users as [|e users]; [discriminate|].
  cbn [map] in Hmap. inversion Hmap as [[He Hrest]]. clear Hmap.
  cbn [map snd] in Hnd. inversion Hnd as [|x l Hnotin Hnd']; subst.
  destruct Hin as [Heq|Hin].
  - inversion Heq; subst n0 u0.
    destruct (entry_pair_inv e n u He) as [[-> ->] | (d & -> & Hnick & Huid)].
    + cbn [MessageHandler.find_user_loop].
      apply find_user_loop_fallback. now apply (no_entry_with_identity pairs).
    + cbn [MessageHandler.find_user_loop]. rewrite Huid, py_eq_str, String.eqb_refl.
      exact Hnick.
  - assert (Hne : String.eqb u0 u = false).
    { apply String.eqb_neq. intros ->. apply Hnotin.
      now apply (in_map snd pairs (n, u)). }
    destruct (entry_pair_inv e n0 u0 He) as [[-> ->] | (d & -> & Hnick & Huid)].
    + cbn [MessageHandler.find_user_loop]. now apply IH.
    + cbn [MessageHandler.find_user_loop]. rewrite Huid, py_eq_str, Hne. now apply IH.
Qed.

Lemma user_id_loop_fallback (users : list pyval) (nickname : pyval) :
  forallb (fun entry => negb (maps_name nickname entry)) users = true ->
  WeChatMonitor.user_id_loop env users nickname = nickname.
Proof.
  induction users as [|u users IH]; [reflexivity|].
  cbn [forallb]. intros H. apply andb_true_iff in H as [Hu Hrest].
  destruct u; cbn [WeChatMonitor.user_id_loop]; try (now apply IH);
    cbn [maps_name] in Hu; apply negb_true_iff in Hu; rewrite Hu; now apply IH.
Qed.

End Identities.

(** C6.  Resolution in both directions, with the string asked for as the
    fallback.  With the mapping list
    [["alice", {nickname: "bob", user_id: "222"}]] the display names "alice"
    and "bob" resolve to the identities "alice" and "222", and these
    identities resolve back to "alice" and "bob".  On every mapping list of
    bare names and string-valued entries without repeated names or
    identities, the identity found for a listed display name resolves back to
    that name.  Whenever no entry of the configured list carries the identity
    asked for, the identity itself is returned as the display name; and
    whenever no entry names the display name asked for, the name itself is
    returned as the identity. *)
Theorem identity_resolution (env : Env) :
  WeChatMonitor._get_user_id_by_nickname env example_config (PStr "alice") = PStr "alice"
  /\ WeChatMonitor._get_user_id_by_nickname env example_config (PStr "bob") = PStr "222"
  /\ MessageHandler._find_user_by_id example_config (PStr "222") = PStr "bob"
  /\ MessageHandler._find_user_by_id example_config (PStr "alice") = PStr "alice"
  /\ (forall (config : pyval) (users : list pyval) (pairs : list (string * string))
             (n u : string),
        ConfigManager.get config "wechat.monitor_users" (PList []) = PList users ->
        mapping_of users pairs ->
        In (n, u) pairs ->
        WeChatMonitor._get_user_id_by_nickname env config (PStr n) = PStr u
        /\ MessageHandler._find_user_by_id config (PStr u) = PStr n)
  /\ (forall (config : pyval) (users : list pyval) (user_id : pyval),
        ConfigManager.get config "wechat.monitor_users" (PList []) = PList users ->
        forallb (fun entry => negb (maps_identity user_id entry)) users = true ->
        MessageHandler._find_user_by_id config user_id = user_id)
  /\ (forall (config : pyval) (users : list pyval) (nickname : pyval),
        ConfigManager.get config "wechat.monitor_users" (PList []) = PList users ->
        forallb (fun entry => negb (maps_name nickname entry)) users = true ->
        WeChatMonitor._get_user_id_by_nickname env config nickname = nickname).
Proof.
  repeat (split; [reflexivity|]).
  split; [|split].
  - intros config users pairs n u Hcfg (Hmap & Hnames & Hids) Hin.
    unfold WeChatMonitor._get_user_id_by_nickname, MessageHandler._find_user_by_id.
    rewrite Hcfg. cbn [py_iter bind try_except]. split.
    + now apply (user_id_loop_spec env pairs).
    + now apply (find_user_loop_spec pairs).
  - intros config users user_id Hcfg Hnone.
    unfold MessageHandler._find_user_by_id. rewrite Hcfg. simpl.
    now apply find_user_loop_fallback.
  - intros config users nickname Hcfg Hnone.
    unfold WeChatMonitor._get_user_id_by_nickname. rewrite Hcfg.
    cbn [py_iter bind try_except].
    now apply user_id_loop_fallback.
Qed.

Lemma identity_resolution_witness :
  (WeChatMonitor._get_user_id_by_nickname quiet_env example_config (PStr "bob") = PStr "222"
   /\ MessageHandler._find_user_by_id example_config (PStr "222") = PStr "bob")
  /\ MessageHandler._find_user_by_id example_config (PStr "333") = PStr "333"
  /\ WeChatMonitor._get_user_id_by_nickname quiet_env example_config (PStr "carol")
     = PStr "carol".
Proof.
  destruct (identity_resolution quiet_env)
    as (_ & _ & _ & _ & Hsym & Hid & Hname).
  split; [|split].
  - apply (Hsym example_config example_users [("alice", "alice"); ("bob", "222")]).
    + reflexivity.
    + split; [reflexivity|].
      split; repeat constructor; simpl; intuition discriminate.
    + right. left. reflexivity.
  - apply (Hid example_config example_users); reflexivity.
  - apply (Hname example_config example_users); reflexivity.
Defined.

(** ** C5 *)

Lemma send_message_submitted (transmit : dict -> result unit)
      (c : WebSocketClient.state) (message : dict) :
  submitted c (fst (WebSocketClient.send_message transmit c message)) message.
Proof.
  unfold WebSocketClient.send_message, submitted.
  destruct (negb (WebSocketClient.is_connected c)
            || match WebSocketClient.ws c with None => true | Some _ => false end);
    [right; split; reflexivity|].
  destruct (transmit message); [left | right]; split; reflexivity.
Qed.

Lemma send_api_response_submitted (transmit : dict -> result unit)
      (st : MessageHandler.state) (echo data : pyval) (retcode : Z) (status : pyval) :
  let st' := MessageHandler.send_api_response transmit st echo data retcode status in
  MessageHandler.wechat_calls st' = MessageHandler.wechat_calls st
  /\ submitted (MessageHandler.client st) (MessageHandler.client st')
               (api_response status retcode data echo).
Proof.
  simpl. split; [reflexivity|].
  unfold MessageHandler.send_api_response, WebSocketClient.send_api_response. simpl.
  apply send_message_submitted.
Qed.



(** ** C7 *)

Lemma and_exists_missing (env : Env) (path : pyval) :
  no_existing_file env path -> OneBotV11Converter.and_exists env path = Ok false.
Proof.
  unfold OneBotV11Converter.and_exists.
  intros [H | (p & -> & H)].
  - now rewrite H.
  - simpl. destruct (negb (String.eqb p "")); [exact H | reflexivity].
Qed.

(** C7.  An image message whose path names no existing file and which has no
    URL, and a voice message whose path names no existing file, are converted
    without failure (the event is the converted one, not the error event)
    into an event whose only segment carries the placeholder [[图片]],
    respectively [[语音]], in place of the attachment. *)
Theorem missing_attachment_placeholder (env : Env) (config : pyval) (wechat_msg : dict) :
  (get wechat_msg "message_type" (PStr "text") = PStr "image" ->
   no_existing_file env (get wechat_msg "image_path" PNone) ->
   truthy (get wechat_msg "image_url" PNone) = false ->
   let event := OneBotV11Converter.wechat_to_onebot env config wechat_msg in
   get event "message" PNone
   = PList [OneBotV11Converter.segment (PStr "image") [("file", PStr "[图片]")]]
   /\ get event "raw_message" PNone = PStr "[CQ:image,file=[图片]]")
  /\
  (get wechat_msg "message_type" (PStr "text") = PStr "voice" ->
   no_existing_file env (get wechat_msg "voice_path" PNone) ->
   let event := OneBotV11Converter.wechat_to_onebot env config wechat_msg in
   get event "message" PNone
   = PList [OneBotV11Converter.segment (PStr "record") [("file", PStr "[语音]")]]
   /\ get event "raw_message" PNone = PStr "[CQ:record,file=[语音]]").
Proof.
  split.
  - intros Hkind Hpath Hurl. simpl.
    unfold OneBotV11Converter.wechat_to_onebot. rewrite Hkind.
    cbn [py_eq String.eqb Ascii.eqb Bool.eqb].
    unfold OneBotV11Converter._convert_image_message.
    rewrite (and_exists_missing env _ Hpath), Hurl. split; reflexivity.
  - intros Hkind Hpath. simpl.
    unfold OneBotV11Converter.wechat_to_onebot. rewrite Hkind.
    cbn [py_eq String.eqb Ascii.eqb Bool.eqb].
    unfold OneBotV11Converter._convert_voice_message.
    rewrite (and_exists_missing env _ Hpath). split; reflexivity.
Qed.

Lemma missing_attachment_placeholder_witness :
  get (OneBotV11Converter.wechat_to_onebot quiet_env PNone
         [("message_type", PStr "image"); ("image_path", PStr "cache/images/a.png")])
      "message" PNone
  = PList [OneBotV11Converter.segment (PStr "image") [("file", PStr "[图片]")]]
  /\
  get (OneBotV11Converter.wechat_to_onebot quiet_env PNone
         [("message_type", PStr "voice"); ("voice_path", PStr "cache/files/a.wav")])
      "message" PNone
  = PList [OneBotV11Converter.segment (PStr "record") [("file", PStr "[语音]")]].
Proof.
  split.
  - refine (proj1 (proj1 (missing_attachment_placeholder quiet_env PNone
               [("message_type", PStr "image"); ("image_path", PStr "cache/images/a.png")])
               _ _ _)).
    + reflexivity.
    + right. exists "cache/images/a.png". split; reflexivity.
    + reflexivity.
  - refine (proj1 (proj2 (missing_attachment_placeholder quiet_env PNone
               [("message_type", PStr "voice"); ("voice_path", PStr "cache/files/a.wav")])
               _ _)).
    + reflexivity.
    + right. exists "cache/files/a.wav". split; reflexivity.
Defined.

(** ** C3 *)

(** The invariant fails as worded: the event made from an image message has
    an image segment and no text segment. *)
Lemma image_event_has_no_text_segment : ~ every_event_has_text_segment.
Proof.
  intros H. destruct (H quiet_env PNone image_message) as (segments & Hmsg & _ & Htext).
  vm_compute in Hmsg. inversion Hmsg; subst segments.
  vm_compute in Htext. discriminate.
Qed.

Lemma py_eq_str_inv (v : pyval) (x : string) : py_eq v (PStr x) = true -> v = PStr x.
Proof.
  destruct v; simpl; try discriminate.
  intros H. apply String.eqb_eq in H. now subst.
Qed.

(** C3 (as the code has it).  The event made from a chat message always
    carries exactly one segment, so the segment list is never empty.  For a
    message of kind [image] the segment is an image segment, and for a
    message of kind [voice] a record segment, unless the conversion fails
    (the test of the attachment path raises): then the event is the error
    event, whose segment is a text segment.  For every other kind (text,
    file, unknown), failed or not, the segment is a text segment. *)
Theorem event_has_one_segment (env : Env) (config : pyval) (wechat_msg : dict) :
  let kind := get wechat_msg "message_type" (PStr "text") in
  let event := OneBotV11Converter.wechat_to_onebot env config wechat_msg in
  exists (seg_type : pyval) (data : dict),
    get event "message" PNone = PList [OneBotV11Converter.segment seg_type data]
    /\ (kind = PStr "image" ->
        seg_type = (if check_raises env (get wechat_msg "image_path" PNone)
                    then PStr "text" else PStr "image")
        /\ forall e : exn,
             OneBotV11Converter.and_exists env (get wechat_msg "image_path" PNone) = Err e ->
             event = OneBotV11Converter._create_error_message env config wechat_msg
                       (exn_str e))
    /\ (kind = PStr "voice" ->
        seg_type = (if check_raises env (get wechat_msg "voice_path" PNone)
                    then PStr "text" else PStr "record")
        /\ forall e : exn,
             OneBotV11Converter.and_exists env (get wechat_msg "voice_path" PNone) = Err e ->
             event = OneBotV11Converter._create_error_message env config wechat_msg
                       (exn_str e))
    /\ (kind <> PStr "image" -> kind <> PStr "voice" -> seg_type = PStr "text").
Proof.
  cbv zeta. unfold OneBotV11Converter.wechat_to_onebot, check_raises.
  destruct (py_eq (get wechat_msg "message_type" (PStr "text")) (PStr "text")) eqn:Htext.
  { apply py_eq_str_inv in Htext. rewrite Htext.
    eexists _, _. split; [reflexivity|].
    repeat split; try discriminate; reflexivity. }
  destruct (py_eq (get wechat_msg "message_type" (PStr "text")) (PStr "image")) eqn:Himage.
  { apply py_eq_str_inv in Himage. rewrite Himage.
    unfold OneBotV11Converter._convert_image_message.
    destruct (OneBotV11Converter.and_exists env (get wechat_msg "image_path" PNone))
      as [has_file | e0].
    - eexists _, _. split; [reflexivity|].
      repeat split; try discriminate; congruence.
    - eexists _, _. split; [reflexivity|].
      repeat split; try discriminate; try congruence.
      intros e E. inversion E. reflexivity. }
  destruct (py_eq (get wechat_msg "message_type" (PStr "text")) (PStr "file")) eqn:Hfile.
  { apply py_eq_str_inv in Hfile. rewrite Hfile.
    unfold OneBotV11Converter._convert_file_message.
    destruct (OneBotV11Converter.and_exists env (get wechat_msg "file_path" PNone))
      as [[|] | e]; cbn [bind].
    - destruct (OneBotV11Converter.Path (get wechat_msg "file_path" PNone)) as [p | e];
        cbn [bind].
      + destruct (stat_size env p) as [size | e]; cbn [bind];
          eexists _, _; (split; [reflexivity|]);
          repeat split; try discriminate; reflexivity.
      + eexists _, _. split; [reflexivity|].
        repeat split; try discriminate; reflexivity.
    - eexists _, _. split; [reflexivity|].
      repeat split; try discriminate; reflexivity.
    - eexists _, _. split; [reflexivity|].
      repeat split; try discriminate; reflexivity. }
  destruct (py_eq (get wechat_msg "message_type" (PStr "text")) (PStr "voice")) eqn:Hvoice.
  { apply py_eq_str_inv in Hvoice. rewrite Hvoice.
    unfold OneBotV11Converter._convert_voice_message.
    destruct (OneBotV11Converter.and_exists env (get wechat_msg "voice_path" PNone))
      as [has_file | e0].
    - eexists _, _. split; [reflexivity|].
      repeat split; try discriminate; congruence.
    - eexists _, _. split; [reflexivity|].
      repeat split; try discriminate; try congruence.
      intros e E. inversion E. reflexivity. }
  eexists _, _. split; [reflexivity|].
  split; [|split].
  - intros H. rewrite H in Himage. discriminate.
  - intros H. rewrite H in Hvoice. discriminate.
  - reflexivity.
Qed.

Lemma event_has_one_segment_witness :
  exists (seg_type : pyval) (data : dict),
    get (OneBotV11Converter.wechat_to_onebot quiet_env PNone image_message) "message" PNone
    = PList [OneBotV11Converter.segment seg_type data]
    /\ seg_type = PStr "image".
Proof.
  destruct (event_has_one_segment quiet_env PNone image_message)
    as (seg_type & data & Hmsg & Himage & _).
  exists seg_type, data. split; [exact Hmsg|].
  exact (proj1 (Himage eq_refl)).
Defined.

(** ** C2 *)

Section Flattening.

Variable env : Env.
Variable config : pyval.

Import OneBotV11Converter.

(** One turn of the loop, read declaratively. *)
Lemma loop_body_spec (st : loop_state) (seg : pyval) :
  well_formed seg = true ->
  loop_body env config st seg
  = Ok match attachment env config seg with
       | Some (k, p) => append_file st k p (PStr (flatten env seg))
       | None => append_part st (PStr (flatten env seg))
       end.
Proof.
  destruct seg as [| | | | |d]; try discriminate.
  unfold well_formed, loop_body, attachment, flatten, seg_type, seg_data.
  cbn [py_get bind].
  destruct (py_eq (get d "type" (PStr "text")) (PStr "text")) eqn:Htext.
  { destruct (get d "data" (PDict [])) as [| | | | |x]; try discriminate.
    cbn [py_get bind].
    destruct (get x "text" (PStr "")); try discriminate. reflexivity. }
  destruct (py_eq (get d "type" (PStr "text")) (PStr "image")) eqn:Himage.
  { cbn [orb].
    destruct (get d "data" (PDict [])) as [| | | | |x]; try discriminate.
    intros _. cbn [py_get bind].
    destruct (truthy (_process_image_file env config (get x "file" (PStr ""))));
      reflexivity. }
  destruct (py_eq (get d "type" (PStr "text")) (PStr "record")) eqn:Hrecord.
  { cbn [orb].
    destruct (get d "data" (PDict [])) as [| | | | |x]; try discriminate.
    intros _. cbn [py_get bind].
    destruct (truthy (_process_voice_file env config (get x "file" (PStr ""))));
      reflexivity. }
  destruct (py_eq (get d "type" (PStr "text")) (PStr "at")) eqn:Hat.
  { cbn [orb].
    destruct (get d "data" (PDict [])) as [| | | | |x]; try discriminate.
    intros _. reflexivity. }
  destruct (py_eq (get d "type" (PStr "text")) (PStr "face")) eqn:Hface.
  { cbn [orb].
    destruct (get d "data" (PDict [])) as [| | | | |x]; try discriminate.
    intros _. reflexivity. }
  intros _. reflexivity.
Qed.

(** The state the loop ends in. *)
Lemma loop_spec (message : list pyval) (st : loop_state) :
  forallb well_formed message = true ->
  loop env config st message
  = Ok {| message_type := last_kind (message_type st) (attachments env config message);
          files := files st ++ map snd (attachments env config message);
          content_parts := content_parts st ++ map PStr (map (flatten env) message) |}%list.
Proof.
  revert st. induction message as [|seg rest IH]; intros st Hwf.
  - simpl. rewrite !app_nil_r. now destruct st.
  - simpl in Hwf. apply andb_true_iff in Hwf as [Hseg Hrest].
    cbn [loop]. rewrite (loop_body_spec st seg Hseg). cbn [bind].
    rewrite (IH _ Hrest). cbn [attachments].
    destruct (attachment env config seg) as [[k p]|]; cbn [map];
      unfold last_kind; cbn [fold_left fst snd append_file append_part
                             message_type files content_parts];
      rewrite <- !app_assoc; reflexivity.
Qed.

Lemma join_parts_strings (i : nat) (texts : list string) :
  join_parts i (map PStr texts) = Ok (Str.join texts).
Proof.
  revert i. induction texts as [|s rest IH]; intros i; [reflexivity|].
  cbn [map join_parts]. rewrite IH. cbn [bind]. unfold Str.join.
  destruct rest as [|t rest]; [now rewrite append_nil_r | reflexivity].
Qed.

Lemma plain_parts (texts : list string) :
  existsb is_plain_text (map PStr texts) = existsb plain_text texts.
Proof.
  induction texts as [|s rest IH]; [reflexivity|].
  cbn [map existsb]. now rewrite IH.
Qed.

End Flattening.

(** The second half of the rule fails as worded: a greeting followed by a
    picture is not a lone attachment, yet its kind is [image]. *)
Lemma kind_of_greeting_with_picture : ~ kind_defaults_to_text.
Proof.
  intros H.
  specialize (H quiet_env PNone greeting_with_picture
                [("content", PStr "hello[图片]");
                 ("message_type", PStr "image");
                 ("files", PList [PStr "http://host/a.png"])]
                eq_refl eq_refl).
  discriminate.
Qed.

(** C2 (as the code has it).  For a list of well-formed segments the text
    content is always the in-order concatenation of what the segments
    flatten to (a text segment its text, an image segment [[图片]], a record
    segment [[语音]], an at-mention [@] and the id, a face [[表情] the id
    []], any other type its name in brackets), and the files are the
    attachments that could be resolved.  When exactly one attachment was
    resolved and no flattened part counts as text (non-blank and not starting
    with a bracket) the kind comes from the extension of that file; otherwise
    the kind is that of the last resolved attachment, and [text] when none
    was resolved. *)
Theorem parse_segments (env : Env) (config : pyval) (message : list pyval) :
  forallb well_formed message = true ->
  OneBotV11Converter._parse_onebot_message env config message
  = Ok [("content", PStr (Str.join (map (flatten env) message)));
        ("message_type", kind_of_message env config message);
        ("files", PList (map snd (attachments env config message)))].
Proof.
  intros Hwf. unfold OneBotV11Converter._parse_onebot_message.
  rewrite (loop_spec env config message _ Hwf). cbn [bind].
  cbn [OneBotV11Converter.content_parts OneBotV11Converter.files
       OneBotV11Converter.message_type app].
  rewrite join_parts_strings. cbn [bind]. rewrite plain_parts.
  unfold kind_of_message.
  destruct (attachments env config message) as [|[k p] [|a atts]]; cbn [map snd].
  - reflexivity.
  - destruct (existsb plain_text (map (flatten env) message)); reflexivity.
  - reflexivity.
Qed.

Lemma parse_segments_witness :
  OneBotV11Converter._parse_onebot_message quiet_env PNone
    [PDict [("type", PStr "image"); ("data", PDict [("file", PStr "http://host/a.PNG")])];
     PDict [("type", PStr "face"); ("data", PDict [("id", PStr "14")])]]
  = Ok [("content", PStr "[图片][表情14]");
        ("message_type", PStr "image");
        ("files", PList [PStr "http://host/a.PNG"])].
Proof.
  exact (parse_segments quiet_env PNone
           [PDict [("type", PStr "image"); ("data", PDict [("file", PStr "http://host/a.PNG")])];
            PDict [("type", PStr "face"); ("data", PDict [("id", PStr "14")])]]
           eq_refl).
Defined.

(** ** C4 *)

Section Reconnection.

Import WebSocketClient.

Variable env : Env.
Variable config : pyval.
Variable transmit : dict -> result unit.
Variable json_loads : string -> result pyval.

Lemma connect_attempts_snoc (t : list event) (e : event) :
  connect_attempts (t ++ [e])
  = connect_attempts t + (if is_connect_attempt e then 1 else 0).
Proof.
  unfold connect_attempts. rewrite filter_app, length_app. simpl.
  destruct (is_connect_attempt e); reflexivity.
Qed.

Lemma refused_turn (fuel : nat) (rest : list outcome) (st : state) :
  is_running st = true -> is_connected st = false ->
  _connect_loop env config transmit json_loads fuel (refused :: rest) st
  = _connect_loop env config transmit json_loads fuel rest (after_refusal st).
Proof.
  intros Hrun Hconn. cbn [_connect_loop]. rewrite Hrun, Hconn. reflexivity.
Qed.

Lemma after_refusal_spec (st : state) :
  is_running st = true ->
  let st' := after_refusal st in
  is_running st' = true
  /\ is_connected st' = false
  /\ max_reconnect_attempts st' = max_reconnect_attempts st
  /\ connect_attempts (trace st') = S (connect_attempts (trace st))
  /\ reconnect_attempts st'
     = (if Z.leb (max_reconnect_attempts st) (reconnect_attempts st)
        then reconnect_attempts st else reconnect_attempts st + 1)%Z.
Proof.
  intros Hrun. destruct st as [w u c r sq rq cm cc cd ri mx ra hi lh t].
  simpl in Hrun. subst r.
  unfold after_refusal, _on_close, _handle_reconnect. simpl.
  destruct cd; simpl; destruct (Z.leb mx ra); simpl;
    repeat split; try reflexivity;
    rewrite ?connect_attempts_snoc; simpl; lia.
Qed.

(** Refused attempts never end the loop: every further turn makes a further
    attempt, while the counter stays at the maximum once it got there. *)
Lemma refusals_are_retried (fuel n : nat) (st : state) :
  is_running st = true -> is_connected st = false ->
  (0 <= reconnect_attempts st <= max_reconnect_attempts st)%Z ->
  exists st' : state,
    _connect_loop env config transmit json_loads fuel (repeat refused n) st = Some st'
    /\ is_running st' = true
    /\ is_connected st' = false
    /\ max_reconnect_attempts st' = max_reconnect_attempts st
    /\ connect_attempts (trace st') = connect_attempts (trace st) + n
    /\ reconnect_attempts st'
       = Z.min (reconnect_attempts st + Z.of_nat n) (max_reconnect_attempts st).
Proof.
  revert st. induction n as [|n IH]; intros st Hrun Hconn Hrange.
  - exists st. cbn [repeat _connect_loop]. repeat split; auto; lia.
  - cbn [repeat]. rewrite (refused_turn fuel _ st Hrun Hconn).
    destruct (after_refusal_spec st Hrun) as (Hr & Hc & Hm & Ht & Ha).
    destruct (IH (after_refusal st) Hr Hc) as (st' & Hloop & Hr' & Hc' & Hm' & Ht' & Ha').
    { rewrite Hm, Ha. destruct (Z.leb_spec (max_reconnect_attempts st) (reconnect_attempts st)); lia. }
    exists st'. repeat split; auto; try congruence.
    + rewrite Ht', Ht. lia.
    + rewrite Ha', Hm, Ha.
      destruct (Z.leb_spec (max_reconnect_attempts st) (reconnect_attempts st)); lia.
Qed.

(** A successful connect puts the counter back to zero ([_on_open]). *)
Lemma send_message_keeps_counter (st : state) (message : dict) :
  reconnect_attempts (fst (send_message transmit st message)) = reconnect_attempts st.
Proof.
  unfold send_message.
  destruct (negb (is_connected st) || match ws st with None => true | Some _ => false end);
    [reflexivity|].
  destruct (transmit message); reflexivity.
Qed.

Lemma process_send_queue_keeps_counter (fuel : nat) (st st' : state) :
  _process_send_queue transmit fuel st = Some st' ->
  reconnect_attempts st' = reconnect_attempts st.
Proof.
  revert st. induction fuel as [|fuel IH]; intros st; simpl.
  - destruct (send_queue st); [|discriminate]. intros H; now inversion H.
  - destruct (send_queue st) as [|m q]; [intros H; now inversion H|].
    intros H. rewrite (IH _ H), send_message_keeps_counter. reflexivity.
Qed.

Lemma on_open_resets_counter (fuel : nat) (st st' : state) :
  _on_open env config transmit fuel st = Some st' -> reconnect_attempts st' = 0%Z.
Proof.
  unfold _on_open.
  destruct (_process_send_queue transmit fuel _) as [st1|] eqn:H; [|discriminate].
  intros E. inversion E; subst st'. clear E.
  apply process_send_queue_keeps_counter in H.
  rewrite send_message_keeps_counter in H. simpl in H.
  destruct (on_connect_callback st1); simpl; exact H.
Qed.

End Reconnection.

(** C4 (what the code does).  From a freshly started client, [n] refused
    connection attempts in a row are all made, for every [n]: after the attempt
    counter has reached its maximum of 10 the loop goes on attempting, the
    client still reports that it is running, and the counter stays at 10. *)
Theorem reconnect_attempts_go_on
        (env : Env) (config : pyval) (transmit : dict -> result unit)
        (json_loads : string -> result pyval) (fuel n : nat) :
  exists st' : WebSocketClient.state,
    WebSocketClient._connect_loop env config transmit json_loads fuel
      (repeat refused n) started_client = Some st'
    /\ connect_attempts (WebSocketClient.trace st') = n
    /\ get (WebSocketClient.get_status st') "is_running" PNone = PBool true
    /\ get (WebSocketClient.get_status st') "reconnect_attempts" PNone
       = PInt (Z.min (Z.of_nat n) 10).
Proof.
  destruct (refusals_are_retried env config transmit json_loads fuel n started_client)
    as (st' & Hloop & Hr & _ & _ & Ht & Ha);
    try reflexivity; [simpl; lia|].
  exists st'. split; [exact Hloop|]. split; [exact Ht|].
  unfold WebSocketClient.get_status. simpl. rewrite Hr, Ha. split; reflexivity.
Qed.

(** ** C8 *)

(** C8 (what the code does).  [start()] does not look at the running flag:
    on a client that is already running, whatever its attempt counter, it
    succeeds again, starts a second connection thread and a second heartbeat
    thread, and puts the counter back to zero. *)
Theorem start_again_starts_more_threads (st : WebSocketClient.state) (attempts : Z) :
  let running :=
    WebSocketClient.set_reconnect_attempts attempts
      (fst (WebSocketClient.start default_config st)) in
  let again := WebSocketClient.start default_config running in
  WebSocketClient.is_running running = true
  /\ snd again = true
  /\ WebSocketClient.trace (fst again)
     = (WebSocketClient.trace running
        ++ [WebSocketClient.ThreadStarted "_connect_loop";
            WebSocketClient.ThreadStarted "_heartbeat_loop"])%list
  /\ threads_started (WebSocketClient.trace (fst again))
     = threads_started (WebSocketClient.trace running) + 2
  /\ WebSocketClient.reconnect_attempts (fst again) = 0%Z.
Proof.
  simpl. repeat split.
  - rewrite <- app_assoc. reflexivity.
  - unfold threads_started. rewrite !filter_app, !length_app. simpl. lia.
Qed.

(* ------------------------------------------------------------------ *)
(** * Further properties of the converter *)

(** A text message survives the way to the protocol and back: content, kind,
    identity and time stamp are those of the original. *)
Theorem text_message_round_trip (env : Env) (config : pyval) (wechat_msg : dict)
        (content : string) :
  get wechat_msg "message_type" (PStr "text") = PStr "text" ->
  get wechat_msg "content" (PStr "") = PStr content ->
  let back :=
    OneBotV11Converter.onebot_to_wechat env config
      (OneBotV11Converter.wechat_to_onebot env config wechat_msg) in
  get back "content" PNone = PStr content
  /\ get back "message_type" PNone = PStr "text"
  /\ get back "user_id" PNone = get wechat_msg "user_id" (PStr "")
  /\ get back "timestamp" PNone = get wechat_msg "timestamp" (PInt (now env)).
Proof.
  intros Hkind Hcontent. simpl.
  unfold OneBotV11Converter.wechat_to_onebot. rewrite Hkind.
  cbn [py_eq String.eqb Ascii.eqb Bool.eqb].
  unfold OneBotV11Converter._convert_text_message. rewrite Hcontent.
  unfold OneBotV11Converter.onebot_to_wechat. simpl.
  rewrite append_nil_r. repeat split.
Qed.

Lemma text_message_round_trip_witness :
  get (OneBotV11Converter.onebot_to_wechat quiet_env PNone
         (OneBotV11Converter.wechat_to_onebot quiet_env PNone
            [("user_id", PStr "222"); ("message_type", PStr "text");
             ("content", PStr "see [CQ:face,id=1]")]))
      "content" PNone
  = PStr "see [CQ:face,id=1]".
Proof.
  exact (proj1 (text_message_round_trip quiet_env PNone
                  [("user_id", PStr "222"); ("message_type", PStr "text");
                   ("content", PStr "see [CQ:face,id=1]")]
                  "see [CQ:face,id=1]" eq_refl eq_refl)).
Defined.

(** The message id is a non-negative 31-bit number whatever the hash is. *)
Theorem message_id_range (env : Env) (wechat_msg : dict) :
  exists z : Z,
    OneBotV11Converter._generate_message_id env wechat_msg = PInt z
    /\ (0 <= z < 2 ^ 31)%Z.
Proof.
  unfold OneBotV11Converter._generate_message_id.
  eexists. split; [reflexivity|].
  change 2147483647%Z with (Z.ones 31).
  rewrite Z.land_ones by lia.
  apply Z.mod_pos_bound. lia.
Qed.

(** An image whose file is there is sent as inline base64 data when the file
    can be read, and as its bare path when reading fails. *)
Theorem image_file_embedding (env : Env) (config : pyval) (wechat_msg : dict)
        (p : string) :
  get wechat_msg "message_type" (PStr "text") = PStr "image" ->
  get wechat_msg "image_path" PNone = PStr p ->
  p <> "" ->
  path_exists env p = Ok true ->
  get (OneBotV11Converter.wechat_to_onebot env config wechat_msg) "message" PNone
  = PList [OneBotV11Converter.segment (PStr "image")
             [("file", match read_base64 env p with
                       | Ok data => PStr ("base64://" ++ data)
                       | Err _ => PStr p
                       end)]].
Proof.
  intros Hkind Hpath Hne Hexists.
  unfold OneBotV11Converter.wechat_to_onebot. rewrite Hkind.
  cbn [py_eq String.eqb Ascii.eqb Bool.eqb].
  unfold OneBotV11Converter._convert_image_message, OneBotV11Converter.and_exists.
  rewrite Hpath. cbn [truthy].
  destruct (String.eqb p "") eqn:E; [apply String.eqb_eq in E; congruence|].
  cbn [negb OneBotV11Converter.Path bind]. rewrite Hexists. cbn [bind].
  destruct (read_base64 env p); reflexivity.
Qed.

Lemma image_file_embedding_witness :
  get (OneBotV11Converter.wechat_to_onebot stocked_env PNone
         [("message_type", PStr "image"); ("image_path", PStr "a.png")])
      "message" PNone
  = PList [OneBotV11Converter.segment (PStr "image") [("file", PStr "base64://aGk=")]].
Proof.
  refine (image_file_embedding stocked_env PNone
            [("message_type", PStr "image"); ("image_path", PStr "a.png")] "a.png"
            eq_refl eq_refl _ eq_refl).
  discriminate.
Defined.

Section Degradation.

Variable env : Env.
Variable config : pyval.

Import OneBotV11Converter.

Lemma loop_stops_at_non_object (segments : list pyval) (st : loop_state) :
  existsb (fun seg => negb (is_dict seg)) segments = true ->
  exists e : exn, loop env config st segments = Err e.
Proof.
  revert st. induction segments as [|seg rest IH]; intros st H; [discriminate|].
  cbn [existsb] in H. cbn [loop].
  destruct (loop_body env config st seg) as [st'|e] eqn:Hbody; cbn [bind].
  - apply orb_true_iff in H as [H|H]; [|now apply IH].
    destruct seg; try discriminate; simpl in Hbody; discriminate.
  - eauto.
Qed.

End Degradation.

(** A segment list with an element that is not an object never raises out of
    the converter: the result is a text message that names the failure. *)
Theorem malformed_segment_degrades (env : Env) (config : pyval) (onebot_msg : dict)
        (segments : list pyval) :
  get onebot_msg "message" (PList []) = PList segments ->
  existsb (fun seg => negb (is_dict seg)) segments = true ->
  exists reason : string,
    OneBotV11Converter.onebot_to_wechat env config onebot_msg
    = [("user_id", get onebot_msg "user_id" (PStr ""));
       ("content", PStr ("[消息解析失败: " ++ reason ++ "]"));
       ("message_type", PStr "text");
       ("timestamp", PInt (now env))].
Proof.
  intros Hmsg Hbad.
  destruct (loop_stops_at_non_object env config segments
              {| OneBotV11Converter.message_type := PStr "text";
                 OneBotV11Converter.files := [];
                 OneBotV11Converter.content_parts := [] |} Hbad) as [e He].
  exists (exn_str e).
  unfold OneBotV11Converter.onebot_to_wechat. rewrite Hmsg.
  unfold OneBotV11Converter._parse_onebot_message. rewrite He. reflexivity.
Qed.

Lemma malformed_segment_degrades_witness :
  exists reason : string,
    get (OneBotV11Converter.onebot_to_wechat quiet_env PNone
           [("user_id", PStr "222"); ("message", PList [PStr "hello"])])
        "content" PNone
    = PStr ("[消息解析失败: " ++ reason ++ "]").
Proof.
  destruct (malformed_segment_degrades quiet_env PNone
              [("user_id", PStr "222"); ("message", PList [PStr "hello"])]
              [PStr "hello"] eq_refl eq_refl) as [reason H].
  exists reason. rewrite H. reflexivity.
Defined.

(* ------------------------------------------------------------------ *)
(** * Further properties of the markup parser *)

Section ParserOutput.

Import MessageHandler.

Lemma str_valued_dict_set (k v : string) (d : dict) :
  str_valued d = true -> str_valued (dict_set k (PStr v) d) = true.
Proof.
  unfold str_valued. induction d as [|[k' v'] d IH]; simpl; [reflexivity|].
  intros H. apply andb_true_iff in H as [Hv Hd].
  destruct (String.eqb k' k); simpl.
  - exact Hd.
  - now rewrite Hv, (IH Hd).
Qed.

Lemma str_valued_add_param (d : dict) (param : string) :
  str_valued d = true -> str_valued (add_param d param) = true.
Proof.
  intros H. unfold add_param.
  destruct (Str.contains "=" param); [|exact H].
  destruct (Str.split1 "=" param) as [|key [|value [|x rest]]]; try exact H.
  now apply str_valued_dict_set.
Qed.

Lemma str_valued_parse_params (cq_params_str : string) :
  str_valued (parse_params cq_params_str) = true.
Proof.
  unfold parse_params. destruct (negb (String.eqb cq_params_str "")); [|reflexivity].
  assert (G : forall items d, str_valued d = true ->
                              str_valued (fold_left add_param items d) = true).
  { induction items as [|it items IH]; intros d Hd; simpl; [exact Hd|].
    apply IH. now apply str_valued_add_param. }
  now apply G.
Qed.

Lemma str_valued_get (d : dict) (k default : string) :
  str_valued d = true -> is_str (get d k (PStr default)) = true.
Proof.
  unfold str_valued, get. induction d as [|[k' v'] d IH]; simpl; [reflexivity|].
  intros H. apply andb_true_iff in H as [Hv Hd].
  destruct (String.eqb k' k); [exact Hv | now apply IH].
Qed.

Lemma cq_segment_well_formed (ty : string) (data : dict) :
  str_valued data = true ->
  well_formed (PDict [("type", PStr ty); ("data", PDict data)]) = true.
Proof.
  intros H. unfold well_formed.
  change (get [("type", PStr ty); ("data", PDict data)] "type" (PStr "text")) with (PStr ty).
  change (get [("type", PStr ty); ("data", PDict data)] "data" (PDict [])) with (PDict data).
  cbv zeta.
  destruct (py_eq (PStr ty) (PStr "text")); [now apply str_valued_get|].
  destruct (py_eq (PStr ty) (PStr "image") || py_eq (PStr ty) (PStr "record")
            || py_eq (PStr ty) (PStr "at") || py_eq (PStr ty) (PStr "face"));
    reflexivity.
Qed.

Lemma cq_step_well_formed (message : string) (acc : list pyval * nat) (m : Match) :
  forallb well_formed (fst acc) = true ->
  forallb well_formed (fst (cq_step message acc m)) = true.
Proof.
  destruct acc as [segments last_end]. unfold cq_step. cbn [fst]. intros H.
  rewrite forallb_app. cbn [forallb].
  rewrite cq_segment_well_formed by apply str_valued_parse_params.
  rewrite andb_true_r.
  destruct (Nat.ltb last_end (m_start m)); [|exact H].
  destruct (negb (String.eqb (Str.slice last_end (m_start m) message) "")); [|exact H].
  rewrite forallb_app, H. reflexivity.
Qed.

Lemma fold_cq_step_well_formed (message : string) (ms : list Match) (acc : list pyval * nat) :
  forallb well_formed (fst acc) = true ->
  forallb well_formed (fst (fold_left (cq_step message) ms acc)) = true.
Proof.
  revert acc. induction ms as [|m ms IH]; intros acc H; simpl; [exact H|].
  apply IH. now apply cq_step_well_formed.
Qed.

(** Whatever the string, the parser yields only segments the converter
    accepts. *)
Lemma parse_cq_code_well_formed (message : string) :
  forallb well_formed (_parse_cq_code message) = true.
Proof.
  unfold _parse_cq_code.
  pose proof (fold_cq_step_well_formed message (finditer message) ([], 0) eq_refl) as H.
  destruct (fold_left (cq_step message) (finditer message) ([], 0)) as [segments last_end].
  cbn [fst] in H.
  assert (G : forallb well_formed
                (if Nat.ltb last_end (String.length message)
                 then if negb (String.eqb (Str.drop last_end message) "")
                      then (segments ++ [text_segment (Str.drop last_end message)])%list
                      else segments
                 else segments) = true).
  { destruct (Nat.ltb last_end (String.length message)); [|exact H].
    destruct (negb (String.eqb (Str.drop last_end message) "")); [|exact H].
    rewrite forallb_app, H. reflexivity. }
  destruct (if Nat.ltb last_end (String.length message)
            then if negb (String.eqb (Str.drop last_end message) "")
                 then (segments ++ [text_segment (Str.drop last_end message)])%list
                 else segments
            else segments); [reflexivity | exact G].
Qed.

End ParserOutput.

(** A string message is always converted, never answered by the failure text:
    it is read as one literal text segment under [auto_escape] and as the
    parsed segments otherwise, and the chat message carries the flattened
    content, the kind and the files of those segments. *)
Theorem string_message_always_converts (env : Env) (config : pyval) (s : string)
        (user_id auto_escape : pyval) :
  MessageHandler._parse_onebot_message_content env config (PStr s) user_id auto_escape
  = [("user_id", user_id);
     ("content", PStr (Str.join (map (flatten env) (segments_of_string s auto_escape))));
     ("message_type", kind_of_message env config (segments_of_string s auto_escape));
     ("timestamp", PInt (now env));
     ("files", PList (map snd (attachments env config (segments_of_string s auto_escape))))].
Proof.
  assert (Hwf : forallb well_formed (segments_of_string s auto_escape) = true).
  { unfold segments_of_string. destruct (truthy auto_escape);
      [reflexivity | apply parse_cq_code_well_formed]. }
  unfold MessageHandler._parse_onebot_message_content.
  replace (match PStr s with
           | PStr s0 =>
               if truthy auto_escape then PList [MessageHandler.text_segment s0]
               else PList (MessageHandler._parse_cq_code s0)
           | _ => PStr s
           end) with (PList (segments_of_string s auto_escape))
    by (unfold segments_of_string; destruct (truthy auto_escape); reflexivity).
  unfold OneBotV11Converter.onebot_to_wechat.
  change (get [("user_id", user_id); ("message", PList (segments_of_string s auto_escape));
               ("time", PInt (now env))] "message" (PList []))
    with (PList (segments_of_string s auto_escape)).
  cbv iota.
  unfold OneBotV11Converter._parse_onebot_message.
  rewrite (loop_spec env config _ _ Hwf). cbn [bind].
  cbn [OneBotV11Converter.content_parts OneBotV11Converter.files
       OneBotV11Converter.message_type app].
  rewrite join_parts_strings. cbn [bind]. rewrite plain_parts.
  unfold kind_of_message.
  destruct (attachments env config (segments_of_string s auto_escape))
    as [|[k p] [|a atts]]; cbn [map snd]; try reflexivity.
  destruct (existsb plain_text (map (flatten env) (segments_of_string s auto_escape)));
    reflexivity.
Qed.

(** Under [auto_escape] the text is taken literally, tokens included. *)
Theorem auto_escape_keeps_text (env : Env) (config : pyval) (s : string)
        (user_id auto_escape : pyval) :
  truthy auto_escape = true ->
  MessageHandler._parse_onebot_message_content env config (PStr s) user_id auto_escape
  = [("user_id", user_id);
     ("content", PStr s);
     ("message_type", PStr "text");
     ("timestamp", PInt (now env));
     ("files", PList [])].
Proof.
  intros H. unfold MessageHandler._parse_onebot_message_content. rewrite H.
  unfold OneBotV11Converter.onebot_to_wechat. simpl. now rewrite append_nil_r.
Qed.

Lemma auto_escape_keeps_text_witness :
  get (MessageHandler._parse_onebot_message_content quiet_env PNone
         (PStr "[CQ:image,file=http://host/a.png]") (PStr "222") (PBool true))
      "content" PNone
  = PStr "[CQ:image,file=http://host/a.png]".
Proof.
  rewrite (auto_escape_keeps_text quiet_env PNone "[CQ:image,file=http://host/a.png]"
             (PStr "222") (PBool true) eq_refl).
  reflexivity.
Defined.

Section TokenInText.

Import MessageHandler.

Lemma match_here_other_start (c : ascii) (s : string) :
  Ascii.eqb c "[" = false -> match_here (String c s) = None.
Proof.
  intros H. unfold match_here. cbn [strip_prefix].
  rewrite Ascii.eqb_sym, H. reflexivity.
Qed.

(** Nothing matches inside text without an opening bracket. *)
Lemma finditer_from_plain_prefix (pre s : string) (pos : nat) :
  Str.contains "[" pre = false ->
  finditer_from pos 0 (pre ++ s) = finditer_from (pos + String.length pre) 0 s.
Proof.
  revert pos. induction pre as [|c pre IH]; intros pos H.
  - simpl. now rewrite Nat.add_0_r.
  - cbn [Str.contains] in H. apply orb_false_iff in H as [Hc Hpre].
    cbn [append finditer_from]. rewrite (match_here_other_start c _ Hc).
    rewrite (IH (S pos) Hpre). cbn [String.length]. f_equal. lia.
Qed.

(** The scan resumes behind the characters of a match. *)
Lemma finditer_from_resume (a b : string) (pos : nat) :
  finditer_from pos (String.length a) (a ++ b)
  = finditer_from (pos + String.length a) 0 b.
Proof.
  revert pos. induction a as [|c a IH]; intros pos.
  - simpl. now rewrite Nat.add_0_r.
  - cbn [append String.length finditer_from]. rewrite IH. f_equal. lia.
Qed.

Lemma match_here_token (ty : string) (ps : option string) (post : string) :
  token_groups ty ps ->
  match_here (token_text ty ps ++ post)
  = Some (ty, ps, String.length (token_text ty ps)).
Proof.
  intros (Hne & Hty & Hps). unfold token_text. destruct ps as [p|].
  - destruct Hps as [Hpne Hp].
    replace (("[CQ:" ++ ty ++ ("," ++ p) ++ "]") ++ post)
      with ("[CQ:" ++ ty ++ String "," (p ++ String "]" post))
      by (simpl; rewrite append_assoc; simpl; now rewrite append_assoc).
    rewrite (match_here_params ty p post Hne Hty Hpne Hp).
    do 2 f_equal. simpl. rewrite length_append. simpl. rewrite length_append. simpl. lia.
  - replace (("[CQ:" ++ ty ++ "" ++ "]") ++ post) with ("[CQ:" ++ ty ++ String "]" post)
      by (simpl; now rewrite append_assoc).
    rewrite (match_here_plain ty post Hne Hty).
    do 2 f_equal. simpl. rewrite length_append. simpl. lia.
Qed.

Lemma token_text_cons (ty : string) (ps : option string) :
  exists t : string, token_text ty ps = String "[" t.
Proof. unfold token_text. simpl. eauto. Qed.

(** The one match in plain text, a token, and text without token. *)
Lemma finditer_token_in_text (pre post ty : string) (ps : option string) :
  Str.contains "[" pre = false -> token_groups ty ps -> has_token post = false ->
  finditer (pre ++ token_text ty ps ++ post)
  = [{| m_start := String.length pre;
        m_end := String.length pre + String.length (token_text ty ps);
        group1 := ty;
        group2 := ps |}].
Proof.
  intros Hpre Htok Hpost. unfold finditer.
  rewrite (finditer_from_plain_prefix pre _ 0 Hpre). cbn [Nat.add].
  pose proof (match_here_token ty ps post Htok) as Hm.
  destruct (token_text_cons ty ps) as [t Ht]. rewrite Ht in *.
  cbn [append] in *. cbn [finditer_from]. rewrite Hm.
  cbn [String.length]. rewrite Nat.sub_succ, Nat.sub_0_r.
  rewrite finditer_from_resume.
  rewrite (finditer_from_none _ post Hpost). reflexivity.
Qed.

Lemma substring_prefix (a b : string) : substring 0 (String.length a) (a ++ b) = a.
Proof.
  induction a as [|c a IH]; simpl.
  - now destruct b.
  - now rewrite IH.
Qed.

Lemma length_zero (s : string) : String.length s = 0 -> s = "".
Proof. destruct s; [reflexivity | discriminate]. Qed.

End TokenInText.

(** Plain text, one token, and text without token are read as a text segment
    (when the text before is not empty), the segment of the token, and a text
    segment (when the text after is not empty), in this order. *)
Theorem token_between_texts (pre post ty : string) (ps : option string) :
  Str.contains "[" pre = false ->
  token_groups ty ps ->
  has_token post = false ->
  MessageHandler._parse_cq_code (pre ++ token_text ty ps ++ post)
  = (text_segments pre
     ++ [PDict [("type", PStr ty);
                ("data", PDict (MessageHandler.parse_params
                                  match ps with Some p => p | None => "" end))]]
     ++ text_segments post)%list.
Proof.
  intros Hpre Htok Hpost. unfold MessageHandler._parse_cq_code.
  rewrite (finditer_token_in_text pre post ty ps Hpre Htok Hpost).
  cbn [fold_left MessageHandler.cq_step MessageHandler.m_start MessageHandler.m_end
       MessageHandler.group1 MessageHandler.group2].
  assert (Hparams :
            match ps with
            | Some p => if negb (String.eqb p "") then p else ""
            | None => ""
            end = match ps with Some p => p | None => "" end).
  { destruct ps as [p|]; [|reflexivity].
    destruct Htok as (_ & _ & Hp & _).
    destruct (String.eqb p "") eqn:E; [apply String.eqb_eq in E; congruence | reflexivity]. }
  rewrite Hparams.
  assert (Hfront :
            (if Nat.ltb 0 (String.length pre)
             then if negb (String.eqb
                             (Str.slice 0 (String.length pre)
                                        (pre ++ token_text ty ps ++ post)) "")
                  then ([] ++ [MessageHandler.text_segment
                                 (Str.slice 0 (String.length pre)
                                            (pre ++ token_text ty ps ++ post))])%list
                  else []
             else []) = text_segments pre).
  { unfold Str.slice. rewrite Nat.sub_0_r, substring_prefix. unfold text_segments.
    destruct pre; reflexivity. }
  rewrite Hfront.
  assert (Hlen : String.length (pre ++ token_text ty ps ++ post)
                 = String.length pre + String.length (token_text ty ps)
                   + String.length post)
    by (rewrite !length_append; lia).
  assert (Hdrop : Str.drop (String.length pre + String.length (token_text ty ps))
                           (pre ++ token_text ty ps ++ post) = post).
  { rewrite <- length_append, <- append_assoc. apply drop_append. }
  rewrite Hlen, Hdrop. clear Hfront Hlen Hdrop Hparams Hpost.
  generalize (text_segments pre) as front.
  generalize (String.length pre + String.length (token_text ty ps)) as n.
  intros n front.
  destruct post as [|c post].
  - cbn [String.length]. rewrite Nat.add_0_r, Nat.ltb_irrefl.
    unfold text_segments. cbn [String.eqb app].
    destruct front; reflexivity.
  - assert (Hlt : Nat.ltb n (n + String.length (String c post)) = true)
      by (apply Nat.ltb_lt; simpl; lia).
    rewrite Hlt. unfold text_segments. cbn [String.eqb negb].
    rewrite <- app_assoc.
    destruct front; reflexivity.
Qed.

Lemma token_between_texts_witness :
  MessageHandler._parse_cq_code "look [CQ:image,file=a.png] here"
  = [MessageHandler.text_segment "look ";
     PDict [("type", PStr "image"); ("data", PDict [("file", PStr "a.png")])];
     MessageHandler.text_segment " here"].
Proof.
  refine (token_between_texts "look " " here" "image" (Some "file=a.png") eq_refl _ eq_refl).
  repeat split; discriminate.
Defined.

(* ------------------------------------------------------------------ *)
(** * Further properties of the socket client *)

Section Flush.

Import WebSocketClient.

Variable env : Env.
Variable config : pyval.
Variable transmit : dict -> result unit.
Variable json_loads : string -> result pyval.

Lemma send_message_down (st : state) (m : dict) :
  is_connected st = false ->
  send_message transmit st m = (set_send_queue (send_queue st ++ [m]) st, false).
Proof.
  intros H. unfold send_message. now rewrite H.
Qed.

Lemma send_all_disconnected (messages : list dict) (st : state) :
  is_connected st = false ->
  send_queue (send_all transmit st messages) = (send_queue st ++ messages)%list
  /\ trace (send_all transmit st messages) = trace st
  /\ is_connected (send_all transmit st messages) = false
  /\ ws_url (send_all transmit st messages) = ws_url st
  /\ on_connect_callback (send_all transmit st messages) = on_connect_callback st.
Proof.
  revert st. induction messages as [|m rest IH]; intros st Hdown.
  - unfold send_all. cbn [fold_left]. rewrite app_nil_r. repeat split; auto.
  - unfold send_all. cbn [fold_left]. rewrite (send_message_down st m Hdown). cbn [fst].
    fold (send_all transmit (set_send_queue (send_queue st ++ [m]) st) rest).
    destruct (IH (set_send_queue (send_queue st ++ [m]) st) Hdown)
      as (Hq & Ht & Hc & Hu & Hcb).
    rewrite Hq, Ht, Hc, Hu, Hcb. cbn [send_queue trace ws_url on_connect_callback set_send_queue].
    rewrite <- app_assoc. repeat split; auto.
Qed.

(** With a socket that takes every frame, the flush empties the queue in
    order, and needs as many turns as there are frames. *)
Lemma flush_in_order (queue : list dict) (st : state) (w : pyval) :
  (forall m, transmit m = Ok tt) ->
  send_queue st = queue -> is_connected st = true -> ws st = Some w ->
  exists st' : state,
    _process_send_queue transmit (List.length queue) st = Some st'
    /\ send_queue st' = []
    /\ trace st' = (trace st ++ transmitted queue)%list
    /\ is_connected st' = true
    /\ reconnect_attempts st' = reconnect_attempts st
    /\ on_connect_callback st' = on_connect_callback st.
Proof.
  intros Hok. revert st. induction queue as [|m rest IH]; intros st Hq Hup Hws.
  - exists st. simpl. rewrite Hq, app_nil_r. repeat split; auto.
  - cbn [List.length _process_send_queue]. rewrite Hq.
    assert (Hsend : fst (send_message transmit (set_send_queue rest st) m)
                    = emit (Transmitted m) (set_send_queue rest st)).
    { unfold send_message. simpl. rewrite Hup, Hws, Hok. reflexivity. }
    rewrite Hsend.
    destruct (IH (emit (Transmitted m) (set_send_queue rest st)) eq_refl Hup Hws)
      as (st' & Hrun & Hq' & Ht' & Hc' & Ha' & Hcb').
    exists st'. repeat split; auto.
    rewrite Ht'. simpl. now rewrite <- app_assoc.
Qed.

(** A frame the socket refuses is put back by [send_message], so the queue
    never runs empty and the flush never returns. *)
Lemma flush_spins (fuel : nat) (st : state) (w : pyval) (m : dict) (e : exn) :
  transmit m = Err e -> In m (send_queue st) ->
  is_connected st = true -> ws st = Some w ->
  _process_send_queue transmit fuel st = None.
Proof.
  intros Hm. revert st. induction fuel as [|fuel IH]; intros st Hin Hup Hws.
  - simpl. destruct (send_queue st); [contradiction | reflexivity].
  - simpl. destruct (send_queue st) as [|x rest] eqn:Hq; [contradiction|].
    apply IH.
    + unfold send_message. simpl. rewrite Hup, Hws. simpl.
      destruct (transmit x) eqn:Hx; simpl.
      * destruct Hin as [->|Hin]; [congruence | exact Hin].
      * apply in_or_app. destruct Hin as [->|Hin]; [right; now left | now left].
    + unfold send_message. simpl. rewrite Hup, Hws. simpl.
      destruct (transmit x); exact Hup.
    + unfold send_message. simpl. rewrite Hup, Hws. simpl.
      destruct (transmit x); exact Hws.
Qed.

End Flush.

(** Messages sent while the client is down wait in the queue, and the next
    successful connect sends the lifecycle event and then these messages in
    the order they were sent, leaving the queue empty and the attempt counter
    at zero. *)
Theorem queued_messages_go_out_in_order
        (env : Env) (config : pyval) (transmit : dict -> result unit)
        (json_loads : string -> result pyval)
        (st : WebSocketClient.state) (messages : list dict) :
  (forall m, transmit m = Ok tt) ->
  WebSocketClient.is_connected st = false ->
  WebSocketClient.send_queue st = [] ->
  exists st' : WebSocketClient.state,
    WebSocketClient._connect env config transmit json_loads (List.length messages)
      (send_all transmit st messages) accepted = Some st'
    /\ WebSocketClient.send_queue st' = []
    /\ WebSocketClient.is_connected st' = true
    /\ WebSocketClient.reconnect_attempts st' = 0%Z
    /\ WebSocketClient.trace st'
       = (WebSocketClient.trace st
          ++ [WebSocketClient.ConnectAttempt (WebSocketClient.ws_url st);
              WebSocketClient.Transmitted
                (OneBotV11Converter.create_lifecycle_event env config (PStr "connect"))]
          ++ transmitted messages
          ++ (if WebSocketClient.on_connect_callback st
              then [WebSocketClient.Callback "on_connect" PNone] else []))%list.
Proof.
  intros Hok Hdown Hempty.
  destruct (send_all_disconnected transmit messages st Hdown) as (Hq & Ht & Hc & Hu & Hcb).
  rewrite Hempty in Hq. cbn [app] in Hq.
  unfold accepted, WebSocketClient._connect.
  cbn [fold_left WebSocketClient.dispatch]. unfold WebSocketClient._on_open.
  set (st1 := fst (WebSocketClient.send_message transmit _ _)).
  assert (Hst1 :
            st1 = WebSocketClient.emit
                    (WebSocketClient.Transmitted
                       (OneBotV11Converter.create_lifecycle_event env config (PStr "connect")))
                    (WebSocketClient.set_reconnect_attempts 0
                       (WebSocketClient.set_is_connected true
                          (WebSocketClient.emit
                             (WebSocketClient.ConnectAttempt
                                (WebSocketClient.ws_url (send_all transmit st messages)))
                             (WebSocketClient.set_ws
                                (Some (WebSocketClient.ws_url (send_all transmit st messages)))
                                (send_all transmit st messages)))))).
  { unfold st1, WebSocketClient.send_message. simpl. now rewrite Hok. }
  destruct (flush_in_order transmit messages st1
              (WebSocketClient.ws_url (send_all transmit st messages)) Hok)
    as (st' & Hrun & Hq' & Ht' & Hc' & Ha' & Hcb');
    try (rewrite Hst1; simpl; auto; fail).
  rewrite Hrun.
  exists (if WebSocketClient.on_connect_callback st'
          then WebSocketClient.emit (WebSocketClient.Callback "on_connect" PNone) st'
          else st').
  split; [reflexivity|].
  assert (Hcb1 : WebSocketClient.on_connect_callback st'
                 = WebSocketClient.on_connect_callback st)
    by (rewrite Hcb', Hst1; simpl; exact Hcb).
  assert (Ha1 : WebSocketClient.reconnect_attempts st' = 0%Z)
    by (rewrite Ha', Hst1; reflexivity).
  assert (Ht1 : WebSocketClient.trace st'
                = (WebSocketClient.trace st
                   ++ [WebSocketClient.ConnectAttempt (WebSocketClient.ws_url st);
                       WebSocketClient.Transmitted
                         (OneBotV11Converter.create_lifecycle_event env config
                            (PStr "connect"))]
                   ++ transmitted messages)%list).
  { rewrite Ht', Hst1. simpl. rewrite Ht, Hu. rewrite <- !app_assoc. reflexivity. }
  rewrite Hcb1.
  destruct (WebSocketClient.on_connect_callback st); simpl.
  - repeat split; auto. rewrite Ht1. rewrite <- !app_assoc. reflexivity.
  - repeat split; auto. rewrite Ht1. rewrite app_nil_r. reflexivity.
Qed.

Lemma queued_messages_go_out_in_order_witness :
  exists st' : WebSocketClient.state,
    WebSocketClient._connect quiet_env default_config (fun _ => Ok tt) (fun _ => Ok PNone) 2
      (send_all (fun _ => Ok tt) started_client
         [[("echo", PStr "a")]; [("echo", PStr "b")]])
      accepted = Some st'
    /\ WebSocketClient.send_queue st' = [].
Proof.
  destruct (queued_messages_go_out_in_order quiet_env default_config (fun _ => Ok tt)
              (fun _ => Ok PNone) started_client
              [[("echo", PStr "a")]; [("echo", PStr "b")]]
              (fun _ => eq_refl) eq_refl eq_refl) as (st' & H & Hq & _).
  exists st'. split; [exact H | exact Hq].
Defined.

(** When a queued frame cannot be transmitted, the flush that [_on_open]
    starts never comes to an end: the frame goes back into the queue each
    time, whatever the number of turns. *)
Theorem refused_frame_blocks_connect
        (env : Env) (config : pyval) (transmit : dict -> result unit)
        (st : WebSocketClient.state) (w : pyval) (m : dict) (e : exn) (fuel : nat) :
  transmit m = Err e ->
  In m (WebSocketClient.send_queue st) ->
  WebSocketClient.ws st = Some w ->
  WebSocketClient._on_open env config transmit fuel st = None.
Proof.
  intros Hm Hin Hws. unfold WebSocketClient._on_open.
  rewrite (flush_spins transmit fuel _ w m e Hm); [reflexivity | | |].
  - unfold WebSocketClient.send_message. simpl. rewrite Hws. simpl.
    destruct (transmit (OneBotV11Converter.create_lifecycle_event env config (PStr "connect"))); simpl; [exact Hin | apply in_or_app; now left].
  - unfold WebSocketClient.send_message. simpl. rewrite Hws. simpl.
    destruct (transmit (OneBotV11Converter.create_lifecycle_event env config (PStr "connect"))); reflexivity.
  - unfold WebSocketClient.send_message. simpl. rewrite Hws. simpl.
    destruct (transmit (OneBotV11Converter.create_lifecycle_event env config (PStr "connect"))); exact Hws.
Qed.

Lemma refused_frame_blocks_connect_witness :
  WebSocketClient._on_open quiet_env default_config
    (fun m => match m with
              | [("echo", _)] => Err (Raise "WebSocketConnectionClosedException" "closed")
              | _ => Ok tt
              end)
    1000
    (WebSocketClient.set_send_queue [[("echo", PStr "a")]]
       (WebSocketClient.set_ws (Some (PStr "ws://localhost:10001/ws")) started_client))
  = None.
Proof.
  apply (refused_frame_blocks_connect quiet_env default_config _ _
           (PStr "ws://localhost:10001/ws") [("echo", PStr "a")]
           (Raise "WebSocketConnectionClosedException" "closed") 1000).
  - reflexivity.
  - left. reflexivity.
  - reflexivity.
Defined.

(** [stop()] is final and idempotent: the client is neither running nor
    connected and holds no socket, a second [stop()] changes nothing, and the
    connection loop makes no attempt afterwards, whatever would come of one. *)
Theorem stop_is_final
        (env : Env) (config : pyval) (transmit : dict -> result unit)
        (json_loads : string -> result pyval)
        (st : WebSocketClient.state) (fuel : nat) (outcomes : list WebSocketClient.outcome) :
  WebSocketClient.is_running (WebSocketClient.stop st) = false
  /\ WebSocketClient.is_connected (WebSocketClient.stop st) = false
  /\ WebSocketClient.ws (WebSocketClient.stop st) = None
  /\ WebSocketClient.stop (WebSocketClient.stop st) = WebSocketClient.stop st
  /\ WebSocketClient._connect_loop env config transmit json_loads fuel outcomes
       (WebSocketClient.stop st)
     = Some (WebSocketClient.stop st).
Proof.
  unfold WebSocketClient.stop.
  destruct st as [w u c r sq rq cm cc cd ri mx ra hi lh t].
  destruct w as [w|]; simpl; repeat split; destruct outcomes; reflexivity.
Qed.

Section Receiving.

Import WebSocketClient.

Variable json_loads : string -> result pyval.

Lemma on_message_keeps_objects (st : state) (raw : string) :
  forallb is_dict (receive_queue st) = true ->
  forallb is_dict (receive_queue (_on_message json_loads st raw)) = true.
Proof.
  intros H. unfold _on_message.
  destruct (json_loads raw) as [data|e]; [|exact H].
  destruct data; simpl; try exact H.
  destruct (on_message_callback st); simpl; rewrite forallb_app, H; reflexivity.
Qed.

Lemma receive_all_keeps_objects (raws : list string) (st : state) :
  forallb is_dict (receive_queue st) = true ->
  forallb is_dict (receive_queue (receive_all json_loads st raws)) = true.
Proof.
  revert st. induction raws as [|raw raws IH]; intros st H; simpl; [exact H|].
  apply IH. now apply on_message_keeps_objects.
Qed.

End Receiving.

(** The receive path only queues JSON objects: a frame that is not JSON, or
    is JSON but not an object, leaves the client untouched.  So after any
    frames received by a fresh client, polling answers [None] exactly when
    the queue is empty. *)
Theorem receive_queue_holds_objects
        (json_loads : string -> result pyval) (raws : list string) :
  (forall (st : WebSocketClient.state) (raw : string),
      (forall d, json_loads raw <> Ok (PDict d)) ->
      WebSocketClient._on_message json_loads st raw = st)
  /\ (snd (WebSocketClient.get_received_message
             (receive_all json_loads WebSocketClient.init raws)) = PNone
      <-> WebSocketClient.receive_queue (receive_all json_loads WebSocketClient.init raws)
          = []).
Proof.
  split.
  - intros st raw H. unfold WebSocketClient._on_message.
    destruct (json_loads raw) as [data|e]; [|reflexivity].
    destruct data; try reflexivity. exfalso. now apply (H d).
  - pose proof (receive_all_keeps_objects json_loads raws WebSocketClient.init eq_refl) as H.
    unfold WebSocketClient.get_received_message.
    destruct (WebSocketClient.receive_queue
                (receive_all json_loads WebSocketClient.init raws)) as [|frame rest].
    + split; reflexivity.
    + simpl in H. apply andb_true_iff in H as [Hd _]. simpl.
      split; [intros E; subst frame; discriminate | discriminate].
Qed.

Lemma receive_queue_holds_objects_witness :
  WebSocketClient._on_message (fun _ => Ok (PList [PInt 1])) WebSocketClient.init "[1]"
  = WebSocketClient.init.
Proof.
  apply (proj1 (receive_queue_holds_objects (fun _ => Ok (PList [PInt 1])) ["[1]"])).
  intros d. discriminate.
Defined.

(* ------------------------------------------------------------------ *)
(** * Further properties of the router *)

Section Answers.

Import MessageHandler.

Variable env : Env.
Variable config : pyval.
Variable transmit : dict -> result unit.
Variable endpoint : WeChatMonitor.call -> result bool.

Lemma send_to_wechat_keeps_client (st : state) (target_user : pyval) (wechat_msg : dict) :
  client (fst (_send_to_wechat env endpoint st target_user wechat_msg)) = client st.
Proof.
  unfold _send_to_wechat, call_endpoint. cbn [fst].
  repeat match goal with
         | |- context [if ?b then _ else _] => destruct b
         | |- context [match first_item ?f with _ => _ end] => destruct (first_item f)
         end; reflexivity.
Qed.

(** At most one call goes to the endpoint, and success is reported only for
    a call the endpoint answered with [True]. *)
Lemma send_to_wechat_report (st : state) (target_user : pyval) (wechat_msg : dict) :
  let r := _send_to_wechat env endpoint st target_user wechat_msg in
  (wechat_calls (fst r) = wechat_calls st /\ snd r = false)
  \/ (exists c : WeChatMonitor.call,
         wechat_calls (fst r) = (wechat_calls st ++ [c])%list
         /\ snd r = match endpoint c with Ok b => b | Err _ => false end).
Proof.
  unfold _send_to_wechat, call_endpoint. cbn [fst snd].
  repeat match goal with
         | |- context [if ?b then _ else _] => destruct b
         | |- context [match first_item ?f with _ => _ end] => destruct (first_item f)
         end; cbn [fst snd try_except];
    try (left; split; reflexivity);
    right; eexists; (split; [reflexivity|]);
    match goal with |- context [endpoint ?c] => destruct (endpoint c) end; reflexivity.
Qed.

Lemma respond_from (st st0 : state) (echo data : pyval) (retcode : Z) (status : pyval) :
  client st0 = client st ->
  submitted (client st) (client (send_api_response transmit st0 echo data retcode status))
            (api_response status retcode data echo).
Proof.
  intros H. rewrite <- H. apply send_api_response_submitted.
Qed.

Lemma private_msg_answered (st : state) (params echo : pyval) :
  exists (status : pyval) (retcode : Z) (data : pyval),
    submitted (client st)
              (client (_handle_send_private_msg env config transmit endpoint st params echo))
              (api_response status retcode data echo)
    /\ In retcode [0; 1400; 1404; 1500]%Z.
Proof.
  unfold _handle_send_private_msg.
  destruct params as [| | | | |p];
    try (eexists _, 1500%Z, _; split; [now apply respond_from | simpl; tauto]).
  destruct (negb (truthy (get p "user_id" (PStr ""))));
    [eexists _, 1400%Z, _; split; [now apply respond_from | simpl; tauto]|].
  destruct (negb (truthy (get p "message" (PStr ""))));
    [eexists _, 1400%Z, _; split; [now apply respond_from | simpl; tauto]|].
  destruct (negb (truthy (_find_user_by_id config (get p "user_id" (PStr "")))));
    [eexists _, 1404%Z, _; split; [now apply respond_from | simpl; tauto]|].
  pose proof (send_to_wechat_keeps_client st
                (_find_user_by_id config (get p "user_id" (PStr "")))
                (_parse_onebot_message_content env config (get p "message" (PStr ""))
                   (get p "user_id" (PStr "")) (get p "auto_escape" (PBool false)))) as Hc.
  destruct (_send_to_wechat env endpoint st _ _) as [st1 success]. cbn [fst] in Hc.
  destruct success.
  - eexists _, 0%Z, _. split; [|simpl; tauto].
    unfold record_sent. cbn [client]. now apply respond_from.
  - eexists _, 1500%Z, _. split; [now apply respond_from | simpl; tauto].
Qed.

Lemma send_msg_answered (st : state) (params echo : pyval) :
  exists (status : pyval) (retcode : Z) (data : pyval),
    submitted (client st)
              (client (_handle_send_msg env config transmit endpoint st params echo))
              (api_response status retcode data echo)
    /\ In retcode [0; 1400; 1404; 1500]%Z.
Proof.
  unfold _handle_send_msg.
  destruct (py_get params "message_type" PNone) as [message_type|e];
    [|eexists _, 1500%Z, _; split; [now apply respond_from | simpl; tauto]].
  destruct (py_eq message_type (PStr "private")); [apply private_msg_answered|].
  destruct (py_eq message_type (PStr "group"));
    [eexists _, 1404%Z, _ | eexists _, 1400%Z, _];
    (split; [now apply respond_from | simpl; tauto]).
Qed.

End Answers.

(** Every API request is answered exactly once: one response is handed to
    the socket client, it carries the echo of the request unchanged, and its
    retcode is 0, 1400, 1404 or 1500. *)
Theorem every_request_is_answered_once
        (env : Env) (config : pyval) (transmit : dict -> result unit)
        (endpoint : WeChatMonitor.call -> result bool)
        (st : MessageHandler.state) (request : dict) :
  exists (status : pyval) (retcode : Z) (data : pyval),
    submitted (MessageHandler.client st)
              (MessageHandler.client
                 (MessageHandler._handle_api_request env config transmit endpoint st request))
              (api_response status retcode data (get request "echo" (PStr "")))
    /\ In retcode [0; 1400; 1404; 1500]%Z.
Proof.
  unfold MessageHandler._handle_api_request.
  destruct (py_eq (get request "action" (PStr "")) (PStr "send_private_msg"));
    [apply private_msg_answered|].
  destruct (py_eq (get request "action" (PStr "")) (PStr "send_group_msg")).
  { destruct (py_get (get request "params" (PDict [])) "group_id" (PStr ""));
      [eexists _, 1404%Z, _ | eexists _, 1500%Z, _];
      (split; [now apply respond_from | simpl; tauto]). }
  destruct (py_eq (get request "action" (PStr "")) (PStr "send_msg"));
    [apply send_msg_answered|].
  destruct (py_eq (get request "action" (PStr "")) (PStr "get_login_info"));
    [eexists _, 0%Z, _; split; [now apply respond_from | simpl; tauto]|].
  destruct (py_eq (get request "action" (PStr "")) (PStr "get_status"));
    [eexists _, 0%Z, _ | eexists _, 1404%Z, _];
    (split; [now apply respond_from | simpl; tauto]).
Qed.



(** Delivery to the chat endpoint makes at most one call, and reports success
    only when that call was answered with [True]; without a call (an image,
    file or voice message with no file) it reports failure. *)
Theorem delivery_is_reported_faithfully
        (env : Env) (endpoint : WeChatMonitor.call -> result bool)
        (st : MessageHandler.state) (target_user : pyval) (wechat_msg : dict) :
  let r := MessageHandler._send_to_wechat env endpoint st target_user wechat_msg in
  (MessageHandler.wechat_calls (fst r) = MessageHandler.wechat_calls st /\ snd r = false)
  \/ (exists c : WeChatMonitor.call,
         MessageHandler.wechat_calls (fst r) = (MessageHandler.wechat_calls st ++ [c])%list
         /\ snd r = match endpoint c with Ok b => b | Err _ => false end).
Proof.
  apply send_to_wechat_report.
Qed.

(** Only API requests are answered: a frame without [action] never makes the
    router hand anything to the socket client, and an event frame or an API
    response changes nothing at all. *)
Theorem only_requests_are_answered
        (env : Env) (config : pyval) (transmit : dict -> result unit)
        (endpoint : WeChatMonitor.call -> result bool)
        (st : MessageHandler.state) (message : dict) :
  has_key "action" message = false ->
  let st' := MessageHandler._process_message env config transmit endpoint st message in
  MessageHandler.client st' = MessageHandler.client st
  /\ (py_eq (get message "post_type" PNone) (PStr "message") = true
      \/ has_key "echo" message = true ->
      st' = st).
Proof.
  intros Hno. simpl. unfold MessageHandler._process_message. rewrite Hno.
  split.
  - destruct (py_eq (get message "post_type" PNone) (PStr "message")); [reflexivity|].
    destruct (has_key "echo" message); [reflexivity|].
    unfold MessageHandler._handle_reply_message.
    destruct (has_key "user_id" message
              && (has_key "message" message || has_key "content" message));
      [|reflexivity].
    destruct (negb (truthy _)); [reflexivity|].
    apply send_to_wechat_keeps_client.
  - intros [H|H].
    + now rewrite H.
    + rewrite H. now destruct (py_eq (get message "post_type" PNone) (PStr "message")).
Qed.

Lemma only_requests_are_answered_witness :
  MessageHandler._process_message quiet_env example_config (fun _ => Ok tt)
    (fun _ => Ok true) router0
    [("status", PStr "ok"); ("retcode", PInt 0); ("echo", PStr "x")]
  = router0.
Proof.
  apply (proj2 (only_requests_are_answered quiet_env example_config (fun _ => Ok tt)
                  (fun _ => Ok true) router0
                  [("status", PStr "ok"); ("retcode", PInt 0); ("echo", PStr "x")]
                  eq_refl)).
  right. reflexivity.
Defined.

(** A frame that is neither request, event nor response and names an identity
    and a content is forwarded as one text message to the display name the
    identity resolves to, provided that name is truthy.  When the identity
    resolves to nothing (an empty string, as for an empty [user_id], or
    [None]), the frame is dropped and the router stays as it is. *)
Theorem reply_frame_is_forwarded
        (env : Env) (config : pyval) (transmit : dict -> result unit)
        (endpoint : WeChatMonitor.call -> result bool)
        (st : MessageHandler.state) (message : dict) :
  has_key "action" message = false ->
  py_eq (get message "post_type" PNone) (PStr "message") = false ->
  has_key "echo" message = false ->
  has_key "user_id" message = true ->
  has_key "message" message || has_key "content" message = true ->
  let target_user := MessageHandler._find_user_by_id config (get message "user_id" (PStr "")) in
  let st' := MessageHandler._process_message env config transmit endpoint st message in
  (truthy target_user = true ->
   MessageHandler.wechat_calls st'
   = (MessageHandler.wechat_calls st
      ++ [WeChatMonitor.send_message target_user
            (get message "message" (get message "content" (PStr ""))) "text"])%list)
  /\ (truthy target_user = false -> st' = st).
Proof.
  intros Hno Hpost Hecho Huser Hcontent. cbv zeta.
  unfold MessageHandler._process_message. rewrite Hno, Hpost, Hecho.
  unfold MessageHandler._handle_reply_message. rewrite Huser, Hcontent.
  split; intros Htarget; rewrite Htarget; reflexivity.
Qed.

Lemma reply_frame_is_forwarded_witness :
  MessageHandler.wechat_calls
    (MessageHandler._process_message quiet_env example_config (fun _ => Ok tt)
       (fun _ => Ok true) router0 [("user_id", PStr "222"); ("content", PStr "hi")])
  = [WeChatMonitor.send_message (PStr "bob") (PStr "hi") "text"]
  /\ MessageHandler._process_message quiet_env example_config (fun _ => Ok tt)
       (fun _ => Ok true) router0 [("user_id", PStr ""); ("content", PStr "hi")]
     = router0.
Proof.
  split.
  - exact (proj1 (reply_frame_is_forwarded quiet_env example_config (fun _ => Ok tt)
                    (fun _ => Ok true) router0
                    [("user_id", PStr "222"); ("content", PStr "hi")]
                    eq_refl eq_refl eq_refl eq_refl eq_refl) eq_refl).
  - exact (proj2 (reply_frame_is_forwarded quiet_env example_config (fun _ => Ok tt)
                    (fun _ => Ok true) router0
                    [("user_id", PStr ""); ("content", PStr "hi")]
                    eq_refl eq_refl eq_refl eq_refl eq_refl) eq_refl).
Defined.

(** Chat messages are forwarded only for senders on the mapping list: a
    message from anybody else leaves the router as it is, and a message from
    a listed sender hands exactly its converted event to the socket client. *)
Theorem only_listed_senders_are_forwarded
        (env : Env) (config : pyval) (transmit : dict -> result unit)
        (st : MessageHandler.state) (wechat_msg : dict) (users : list pyval) :
  ConfigManager.get config "wechat.monitor_users" (PList []) = PList users ->
  let st' := MessageHandler.handle_wechat_message env config transmit st wechat_msg in
  let listed :=
    existsb (MessageHandler.names (get wechat_msg "user_name" (PStr ""))) users in
  (listed = false -> st' = st)
  /\ (listed = true ->
      MessageHandler.wechat_calls st' = MessageHandler.wechat_calls st
      /\ submitted (MessageHandler.client st) (MessageHandler.client st')
                   (OneBotV11Converter.wechat_to_onebot env config wechat_msg)).
Proof.
  intros Hcfg. simpl. unfold MessageHandler.handle_wechat_message. rewrite Hcfg.
  cbn [py_iter]. split; intros H; rewrite H; [reflexivity|].
  split; [reflexivity|].
  unfold WebSocketClient.send_wechat_message. cbn [MessageHandler.client
    MessageHandler.with_client]. apply send_message_submitted.
Qed.

Lemma only_listed_senders_are_forwarded_witness :
  MessageHandler.handle_wechat_message quiet_env example_config (fun _ => Ok tt) router0
    [("user_name", PStr "mallory"); ("message_type", PStr "text"); ("content", PStr "hi")]
  = router0.
Proof.
  exact (proj1 (only_listed_senders_are_forwarded quiet_env example_config (fun _ => Ok tt)
                  router0
                  [("user_name", PStr "mallory"); ("message_type", PStr "text");
                   ("content", PStr "hi")]
                  example_users eq_refl)
               eq_refl).
Defined.

(* ------------------------------------------------------------------ *)
(** * Identity mapping, both ways *)

(** On a mapping list without repeated display names or identities the two
    lookups are inverse to each other: the identity found for a listed
    display name resolves back to that display name. *)
Theorem identity_round_trip (env : Env) (config : pyval) (users : list pyval)
        (pairs : list (string * string)) (n u : string) :
  ConfigManager.get config "wechat.monitor_users" (PList []) = PList users ->
  mapping_of users pairs ->
  In (n, u) pairs ->
  WeChatMonitor._get_user_id_by_nickname env config (PStr n) = PStr u
  /\ MessageHandler._find_user_by_id config (PStr u) = PStr n.
Proof.
  intros Hcfg (Hmap & Hnames & Hids) Hin.
  unfold WeChatMonitor._get_user_id_by_nickname, MessageHandler._find_user_by_id.
  rewrite Hcfg. cbn [py_iter bind try_except]. split.
  - now apply (user_id_loop_spec env pairs).
  - now apply (find_user_loop_spec pairs).
Qed.

Lemma identity_round_trip_witness :
  WeChatMonitor._get_user_id_by_nickname quiet_env example_config (PStr "bob") = PStr "222"
  /\ MessageHandler._find_user_by_id example_config (PStr "222") = PStr "bob".
Proof.
  apply (identity_round_trip quiet_env example_config example_users
           [("alice", "alice"); ("bob", "222")] "bob" "222").
  - reflexivity.
  - split; [reflexivity|].
    split; repeat constructor; simpl; intuition discriminate.
  - right. left. reflexivity.
Defined.

(* ------------------------------------------------------------------ *)
(** * A private message, end to end *)




(* ------------------------------------------------------------------ *)
(** * The configuration store *)

Lemma dict_get_set_same (k : string) (v : pyval) (d : dict) :
  dict_get k (dict_set k v d) = Some v.
Proof.
  induction d as [|[k' v'] d IH]; simpl.
  - now rewrite String.eqb_refl.
  - destruct (String.eqb k' k) eqn:E; simpl; rewrite E; [reflexivity | exact IH].
Qed.

Lemma dict_get_set_other (k k' : string) (v : pyval) (d : dict) :
  k <> k' -> dict_get k' (dict_set k v d) = dict_get k' d.
Proof.
  intros Hne. induction d as [|[k0 v0] d IH]; simpl.
  - apply String.eqb_neq in Hne. now rewrite Hne.
  - destruct (String.eqb k0 k) eqn:E; simpl.
    + apply String.eqb_eq in E; subst k0.
      apply String.eqb_neq in Hne. now rewrite Hne.
    + destruct (String.eqb k0 k'); [reflexivity | exact IH].
Qed.

Lemma split_nonempty (c : ascii) (s : string) : Str.split c s <> [].
Proof.
  destruct s as [|a s]; simpl; [discriminate|].
  destruct (Ascii.eqb a c); [discriminate|].
  destruct (Str.split c s); discriminate.
Qed.

Lemma set_in_walk (keys : list string) (last : string) (value config config' : pyval) :
  ConfigManager.set_in keys last value config = Some config' ->
  ConfigManager.walk (keys ++ [last]) config' = Some value.
Proof.
  revert config config'. induction keys as [|k keys IH]; intros config config' H.
  - destruct config; try discriminate. simpl in H. inversion H; subst.
    simpl. now rewrite dict_get_set_same.
  - destruct config as [| | | | |d]; try discriminate. cbn [ConfigManager.set_in] in H.
    destruct (ConfigManager.set_in keys last value
                match dict_get k d with Some c => c | None => PDict [] end)
      as [child'|] eqn:Hchild; [|discriminate].
    inversion H; subst. cbn [app ConfigManager.walk ConfigManager.subscript].
    rewrite dict_get_set_same. now apply (IH _ _ Hchild).
Qed.

(** What [set] rewrites is the entry of the first key, in a dict. *)
Lemma set_in_top (keys : list string) (last : string) (value config config' : pyval) :
  ConfigManager.set_in keys last value config = Some config' ->
  exists (d : dict) (x : pyval),
    config = PDict d /\ config' = PDict (dict_set (hd last keys) x d).
Proof.
  destruct keys as [|k keys]; intros H.
  - destruct config as [| | | | |d]; try discriminate. simpl in H. inversion H; eauto.
  - destruct config as [| | | | |d]; try discriminate. cbn [ConfigManager.set_in] in H.
    destruct (ConfigManager.set_in keys last value _) as [child'|]; [|discriminate].
    inversion H; eauto.
Qed.

Lemma hd_app_last (keys : list string) (last default : string) :
  hd default (keys ++ [last]) = hd last keys.
Proof. destruct keys; reflexivity. Qed.

(** A value written with [set] is the value [get] reads under the same
    dotted key, whatever was there before and whatever the default. *)
Theorem config_set_then_get (config_data config_data' : pyval) (key : string)
        (value default : pyval) :
  ConfigManager.set config_data key value = (config_data', true) ->
  ConfigManager.get config_data' key default = value.
Proof.
  unfold ConfigManager.set, ConfigManager.get.
  destruct (ConfigManager.set_in _ _ value config_data) as [c|] eqn:H; [|discriminate].
  intros E. inversion E; subst c.
  rewrite (app_removelast_last EmptyString (split_nonempty "." key)).
  now rewrite (set_in_walk _ _ _ _ _ H).
Qed.

Lemma config_set_then_get_witness :
  ConfigManager.get
    (fst (ConfigManager.set default_config "message.image_cache_dir" (PStr "tmp/img")))
    "message.image_cache_dir" PNone
  = PStr "tmp/img".
Proof.
  apply (config_set_then_get default_config _ "message.image_cache_dir" (PStr "tmp/img") PNone).
  reflexivity.
Defined.

(** On a store without sharing (no dict object stored in two places, as in
    every store read from the JSON file), [set] touches one top-level section
    only: a key whose first component differs reads as before, whether the
    write succeeded or not. *)
Theorem config_set_keeps_other_sections (config_data : pyval) (key other : string)
        (value default : pyval) :
  hd EmptyString (Str.split "." key) <> hd EmptyString (Str.split "." other) ->
  ConfigManager.get (fst (ConfigManager.set config_data key value)) other default
  = ConfigManager.get config_data other default.
Proof.
  intros Hne. unfold ConfigManager.set.
  destruct (ConfigManager.set_in _ _ value config_data) as [c|] eqn:H; [|reflexivity].
  cbn [fst]. apply set_in_top in H as (d & x & -> & ->).
  rewrite <- (hd_app_last _ _ EmptyString) in *.
  rewrite <- (app_removelast_last EmptyString (split_nonempty "." key)) in *.
  unfold ConfigManager.get.
  destruct (Str.split "." other) as [|k2 rest] eqn:Hk;
    [now apply split_nonempty in Hk|].
  cbn [hd] in Hne. cbn [ConfigManager.walk ConfigManager.subscript].
  now rewrite (dict_get_set_other _ k2 x d Hne).
Qed.

Lemma config_set_keeps_other_sections_witness :
  ConfigManager.get
    (fst (ConfigManager.set default_config "message.image_cache_dir" (PStr "tmp/img")))
    "onebot.ws_url" PNone
  = PStr "ws://localhost:10001/ws".
Proof.
  rewrite (config_set_keeps_other_sections default_config "message.image_cache_dir"
             "onebot.ws_url" (PStr "tmp/img") PNone).
  - reflexivity.
  - vm_compute. discriminate.
Defined.

Section Merging.

Import ConfigManager.

Lemma merge_cons (base : dict) (key : string) (value : pyval) (rest : list (string * pyval)) :
  _merge_config base (PDict ((key, value) :: rest))
  = _merge_config
      match dict_get key base, value with
      | Some (PDict b), PDict _ => dict_set key (PDict (_merge_config b value)) base
      | _, _ => dict_set key value base
      end
      (PDict rest).
Proof. reflexivity. Qed.

Lemma merge_nil (base : dict) : _merge_config base (PDict []) = base.
Proof. reflexivity. Qed.

Lemma merge_keeps_unmentioned (u : list (string * pyval)) (base : dict) (k : string) :
  ~ In k (map fst u) ->
  dict_get k (_merge_config base (PDict u)) = dict_get k base.
Proof.
  revert base. induction u as [|[key value] rest IH]; intros base Hk; [reflexivity|].
  rewrite merge_cons. rewrite IH by (intros H; apply Hk; now right).
  assert (Hne : key <> k) by (intros ->; apply Hk; now left).
  destruct (dict_get key base) as [[| | | | |b]|]; try now apply dict_get_set_other.
  destruct value; now apply dict_get_set_other.
Qed.

End Merging.

(** Merging updates into a base: a key the updates do not mention keeps the
    value of the base; a key the updates give a value that is not an object
    gets that value; and where both sides hold an object under a key, the two
    objects are merged in turn. *)
Theorem merge_config_by_key (base : dict) (u : list (string * pyval)) (k : string) :
  NoDup (map fst u) ->
  (~ In k (map fst u) ->
   dict_get k (ConfigManager._merge_config base (PDict u)) = dict_get k base)
  /\ (forall v : pyval,
        In (k, v) u -> is_dict v = false ->
        dict_get k (ConfigManager._merge_config base (PDict u)) = Some v)
  /\ (forall b x : dict,
        In (k, PDict x) u -> dict_get k base = Some (PDict b) ->
        dict_get k (ConfigManager._merge_config base (PDict u))
        = Some (PDict (ConfigManager._merge_config b (PDict x)))).
Proof.
  intros Hnd. split; [apply merge_keeps_unmentioned|].
  split.
  - intros v Hin Hv. revert base.
    induction u as [|[key value] rest IH]; intros base; [contradiction|].
    cbn [map fst] in Hnd. inversion Hnd as [|a l Hnotin Hnd']; subst.
    rewrite merge_cons. destruct Hin as [Heq|Hin].
    + inversion Heq; subst key value.
      rewrite merge_keeps_unmentioned by exact Hnotin.
      destruct (dict_get k base) as [[| | | | |b]|]; try apply dict_get_set_same.
      destruct v; try discriminate; apply dict_get_set_same.
    + now apply IH.
  - intros b x Hin Hbase. revert base Hbase.
    induction u as [|[key value] rest IH]; intros base Hbase; [contradiction|].
    cbn [map fst] in Hnd. inversion Hnd as [|a l Hnotin Hnd']; subst.
    rewrite merge_cons. destruct Hin as [Heq|Hin].
    + inversion Heq; subst key value.
      rewrite merge_keeps_unmentioned by exact Hnotin.
      rewrite Hbase. apply dict_get_set_same.
    + apply (IH Hnd' Hin).
      assert (Hne : key <> k).
      { intros ->. apply Hnotin. now apply (in_map fst rest (k, PDict x)). }
      destruct (dict_get key base) as [[| | | | |b0]|];
        try (rewrite dict_get_set_other by exact Hne; exact Hbase).
      destruct value; rewrite dict_get_set_other by exact Hne; exact Hbase.
Qed.

Lemma merge_config_by_key_witness :
  dict_get "onebot"
    (ConfigManager._merge_config
       [("onebot", PDict [("ws_url", PStr "ws://localhost:10001/ws"); ("self_id", PStr "bot")]);
        ("webui", PDict [("port", PInt 10001)])]
       (PDict [("onebot", PDict [("ws_url", PStr "ws://remote/ws")])]))
  = Some (PDict [("ws_url", PStr "ws://remote/ws"); ("self_id", PStr "bot")]).
Proof.
  refine (proj2 (proj2 (merge_config_by_key
            [("onebot", PDict [("ws_url", PStr "ws://localhost:10001/ws"); ("self_id", PStr "bot")]);
             ("webui", PDict [("port", PInt 10001)])]
            [("onebot", PDict [("ws_url", PStr "ws://remote/ws")])]
            "onebot" _))
            [("ws_url", PStr "ws://localhost:10001/ws"); ("self_id", PStr "bot")]
            [("ws_url", PStr "ws://remote/ws")] _ eq_refl).
  - repeat constructor. simpl. tauto.
  - left. reflexivity.
Defined.

(* ------------------------------------------------------------------ *)
(** * Two more facts on identities and parameters *)

(** A numeric identity never matches an entry whose identity is a string: on
    a list of string-keyed entries it falls through to the fallback and is
    returned as it came, not as a display name. *)
Theorem numeric_identity_is_not_resolved (config : pyval) (users : list pyval)
        (pairs : list (string * string)) (z : Z) :
  ConfigManager.get config "wechat.monitor_users" (PList []) = PList users ->
  map entry_pair users = map Some pairs ->
  MessageHandler._find_user_by_id config (PInt z) = PInt z.
Proof.
  intros Hcfg Hmap. unfold MessageHandler._find_user_by_id. rewrite Hcfg.
  cbn [py_iter bind try_except]. apply find_user_loop_fallback. clear Hcfg.
  revert pairs Hmap. induction users as [|e users IH]; intros pairs Hmap; [reflexivity|].
  destruct pairs as [|[n u] pairs]; [discriminate|].
  cbn [map] in Hmap. inversion Hmap as [[He Hrest]].
  cbn [forallb]. rewrite (IH pairs Hrest), andb_true_r.
  destruct (entry_pair_inv e n u He) as [[-> ->] | (d & -> & Hnick & Huid)];
    [reflexivity|].
  cbn [maps_identity]. now rewrite Huid.
Qed.

Lemma numeric_identity_is_not_resolved_witness :
  MessageHandler._find_user_by_id example_config (PInt 222) = PInt 222.
Proof.
  exact (numeric_identity_is_not_resolved example_config example_users
           [("alice", "alice"); ("bob", "222")] 222 eq_refl eq_refl).
Defined.

(** When a key occurs in several items of a parameter list, the last of them
    gives the value. *)
Theorem last_parameter_wins (items : list string) (d : dict) (k v : string) :
  Str.contains "=" k = false ->
  dict_get k (fold_left MessageHandler.add_param (items ++ [k ++ "=" ++ v]) d)
  = Some (PStr v).
Proof.
  intros Hk. rewrite fold_left_app. cbn [fold_left].
  unfold MessageHandler.add_param at 1.
  change (k ++ "=" ++ v) with (k ++ String "=" v).
  rewrite contains_append, Hk. cbn [Str.contains orb].
  rewrite Ascii.eqb_refl. cbn [orb].
  rewrite (split1_at_first "=" k v Hk).
  apply dict_get_set_same.
Qed.

Lemma last_parameter_wins_witness :
  dict_get "file"
    (fold_left MessageHandler.add_param (["file=a.png"; "cache=0"] ++ ["file" ++ "=" ++ "b.png"]) [])
  = Some (PStr "b.png").
Proof.
  exact (last_parameter_wins ["file=a.png"; "cache=0"] [] "file" "b.png" eq_refl).
Defined.
